(** * RESEARCH-WEB: the analysis pipeline of [index.js]

    A shallow embedding of the server's pipeline: the result cache
    ([setCache], [getCache]), address normalisation and the host
    denylist ([normalizeUrl], [isAllowedUrl]), the page fetcher
    ([fetchSiteHTML]), the prompt builder ([buildPrompt]), the model
    client ([callGroq]) and the [POST /analyze] handler.

    JavaScript strings are sequences of UTF-16 code units; the
    embedding keeps the code units below 256, one [ascii] each.
    Numbers that the program only passes around are rationals.
    The module-level [Map], the clock and the network are an explicit
    [World] threaded through a state-and-exception monad. A request
    is run on its own, from its first statement to its reply; runs of
    other requests come before or after it, not in between. *)

From Stdlib Require Import ZArith NArith QArith Ascii String List Lia Bool DecimalString.
From stdpp Require Import base option gmap strings.

Set Default Proof Using "Type".
Set Warnings "-register-all".

(** ** JavaScript values and built-ins used by the program *)

Module JS.

(** A value read from JSON text, or held in a request or response body. *)
Inductive json : Type :=
  | JNull
  | JBool (b : bool)
  | JNum (q : Q)
  | JStr (s : string)
  | JArr (items : list json)
  | JObj (fields : list (string * json)).

(** A thrown [Error]; the program reads nothing but its [message]. *)
Record Error : Type := mkError { message : string }.

(** [ToBoolean], with [None] standing for [undefined]. *)
Definition truthy (v : json) : bool :=
  match v with
  | JNull => false
  | JBool b => b
  | JNum q => negb (Qnum q =? 0)%Z
  | JStr s => negb (String.eqb s "")
  | JArr _ | JObj _ => true
  end.

Definition truthy_opt (v : option json) : bool :=
  match v with
  | None => false
  | Some v => truthy v
  end.

(** [a || b] on values. *)
Definition or_else (a : option json) (b : json) : json :=
  match a with
  | Some v => if truthy v then v else b
  | None => b
  end.

(** [s || d] where [s] is a string or [undefined]
    (an entry of [process.env]). *)
Definition str_or_else (s : option string) (d : string) : string :=
  match s with
  | Some v => if String.eqb v "" then d else v
  | None => d
  end.

(** *** Strings *)

Definition code (c : ascii) : N := N_of_ascii c.

(** WhiteSpace and LineTerminator code units below 256:
    TAB, LF, VT, FF, CR, SPACE and NO-BREAK SPACE. *)
Definition isWhiteSpace (c : ascii) : bool :=
  ((9 <=? code c) && (code c <=? 13) || (code c =? 32) || (code c =? 160))%N.

Fixpoint trimStart (s : string) : string :=
  match s with
  | EmptyString => EmptyString
  | String c s' => if isWhiteSpace c then trimStart s' else s
  end.

Fixpoint trimEnd (s : string) : string :=
  match s with
  | EmptyString => EmptyString
  | String c s' =>
      match trimEnd s' with
      | EmptyString => if isWhiteSpace c then EmptyString else String c EmptyString
      | t => String c t
      end
  end.

(** [String.prototype.trim]. *)
Definition trim (s : string) : string := trimEnd (trimStart s).

Definition lowerChar (c : ascii) : ascii :=
  let n := code c in
  if ((65 <=? n) && (n <=? 90))%N then ascii_of_N (n + 32)
  else if ((192 <=? n) && (n <=? 222) && negb (n =? 215))%N then ascii_of_N (n + 32)
  else c.

(** [String.prototype.toLowerCase] (A-Z and the upper-case letters of
    Latin-1; every other code unit below 256 is its own lower case). *)
Fixpoint toLowerCase (s : string) : string :=
  match s with
  | EmptyString => EmptyString
  | String c s' => String (lowerChar c) (toLowerCase s')
  end.

(** [s.startsWith(p)]. *)
Fixpoint startsWith (s p : string) : bool :=
  match p, s with
  | EmptyString, _ => true
  | String a p', String b s' => Ascii.eqb a b && startsWith s' p'
  | String _ _, EmptyString => false
  end.

(** [s.length], counted in binary. *)
Fixpoint lengthN (s : string) : N :=
  match s with
  | EmptyString => 0
  | String _ s' => N.succ (lengthN s')
  end.

Definition length (s : string) : Z := Z.of_N (lengthN s).

(** The first [n] code units. *)
Fixpoint take (n : nat) (s : string) : string :=
  match n, s with
  | S n', String c s' => String c (take n' s')
  | _, _ => EmptyString
  end.

Fixpoint drop (n : nat) (s : string) : string :=
  match n, s with
  | S n', String _ s' => drop n' s'
  | _, _ => s
  end.

(** A relative index as [slice] reads it: negative counts from the end,
    and the result is clamped to the string. *)
Definition clampIndex (len i : Z) : Z :=
  if (i <? 0)%Z then Z.max (len + i) 0 else Z.min i len.

(** [s.slice(from, to)]. *)
Definition slice (s : string) (from to : Z) : string :=
  let len := length s in
  let a := clampIndex len from in
  let b := clampIndex len to in
  take (Z.to_nat (Z.max (b - a) 0)) (drop (Z.to_nat a) s).

(** [s.endsWith(p)]: the last [p.length] code units of [s] are [p]. *)
Definition endsWith (s p : string) : bool :=
  (length p <=? length s)%Z &&
  String.eqb (drop (Z.to_nat (length s - length p)) s) p.

(** A template's [${n}] for a non-negative integer. *)
Definition showN (n : N) : string := NilEmpty.string_of_uint (N.to_uint n).

(** *** Member access on values *)

Fixpoint assoc (k : string) (fields : list (string * json)) : option json :=
  match fields with
  | [] => None
  | (k', v) :: rest => if String.eqb k k' then Some v else assoc k rest
  end.

(** [v.name] for a name that is not an index: an own property of an
    object, [length] of a string or an array; [undefined] otherwise.
    Never applied to [null]. *)
Definition member (v : json) (name : string) : option json :=
  match v with
  | JObj fields => assoc name fields
  | JArr items =>
      if String.eqb name "length"
      then Some (JNum (inject_Z (Z.of_nat (List.length items)))) else None
  | JStr s =>
      if String.eqb name "length" then Some (JNum (inject_Z (length s))) else None
  | _ => None
  end.

(** [v[0]]: the first item of an array, the first code unit of a
    string, the property ["0"] of an object. *)
Definition item0 (v : json) : option json :=
  match v with
  | JArr (x :: _) => Some x
  | JStr (String c _) => Some (JStr (String c EmptyString))
  | JObj fields => assoc "0" fields
  | _ => None
  end.

(** Optional chaining [o?.f]: [undefined] when [o] is [undefined] or
    [null], the access otherwise. *)
Definition chain (o : option json) (f : json -> option json) : option json :=
  match o with
  | None | Some JNull => None
  | Some v => f v
  end.

End JS.

Export JS (json(..), Error(..), message).

(** ** The world outside the handler

    Everything the program observes or changes: the module-level
    [cache], the clock behind [Date.now()] and the network behind
    [fetch]. The k-th reading of the clock is [clock k]; the k-th
    call of [fetch] is answered by [network k]. Both are arbitrary,
    so a run constrains neither how time passes nor what the network
    does. *)

Record CacheEntry : Type := { value : json; expires : Z }.

(** The [init] argument of [fetch]; [signal] is the delay in
    milliseconds after which the request's [AbortController] is
    told to abort, when it has one. *)
Record Request : Type := {
  target : string;
  method : string;
  redirect : option string;
  signal : option Z;
  headers : list (string * string);
  body : option json
}.

(** A response of [fetch]: [text] and [json_body] are what
    [res.text()] and [res.json()] settle to. *)
Record Response : Type := {
  status : N;
  statusText : string;
  text : Error + string;
  json_body : Error + json
}.

(** [res.ok]. *)
Definition ok (res : Response) : bool :=
  ((200 <=? status res) && (status res <=? 299))%N.

Record World : Type := {
  cache : gmap string CacheEntry;
  clock : nat -> Z;
  ticks : nat;
  network : nat -> Request -> Error + Response;
  calls : list Request
}.

Definition with_cache (f : gmap string CacheEntry -> gmap string CacheEntry)
    (w : World) : World :=
  {| cache := f (cache w); clock := clock w; ticks := ticks w;
     network := network w; calls := calls w |}.

(** ** Computations: state and exceptions *)

Definition M (A : Type) : Type := World -> (Error + A) * World.

Definition ret {A} (a : A) : M A := fun w => (inr a, w).

Definition throw {A} (e : Error) : M A := fun w => (inl e, w).

Definition bind {A B} (m : M A) (k : A -> M B) : M B :=
  fun w =>
    match m w with
    | (inr a, w') => k a w'
    | (inl e, w') => (inl e, w')
    end.

(** [try { m } catch (err) { h err }]. *)
Definition try_catch {A} (m : M A) (h : Error -> M A) : M A :=
  fun w =>
    match m w with
    | (inr a, w') => (inr a, w')
    | (inl e, w') => h e w'
    end.

(** [m.catch(() => d)] on a settled promise. *)
Definition settle_or {A} (r : Error + A) (d : A) : A :=
  match r with
  | inr a => a
  | inl _ => d
  end.

(** Awaiting a promise that has settled to [r]. *)
Definition await {A} (r : Error + A) : M A :=
  match r with
  | inr a => ret a
  | inl e => throw e
  end.

Notation "'let*' x := m 'in' k" := (bind m (fun x => k))
  (at level 10, x name, m at level 100, k at level 200, only parsing).
Notation "m ;;; k" := (bind m (fun _ => k))
  (at level 100, k at level 200, right associativity, only parsing).

(** [Date.now()]: the next reading of the clock. *)
Definition Date_now : M Z :=
  fun w =>
    (inr (clock w (ticks w)),
     {| cache := cache w; clock := clock w; ticks := S (ticks w);
        network := network w; calls := calls w |}).

(** [fetch(url, init)]: the request is recorded and the network
    answers it. *)
Definition fetch (req : Request) : M Response :=
  fun w =>
    (network w (List.length (calls w)) req,
     {| cache := cache w; clock := clock w; ticks := ticks w;
        network := network w; calls := calls w ++ [req] |}).

Definition cache_get (key : string) : M (option CacheEntry) :=
  fun w => (inr (cache w !! key), w).

Definition cache_set (key : string) (e : CacheEntry) : M unit :=
  fun w => (inr tt, with_cache (insert key e) w).

Definition cache_delete (key : string) : M unit :=
  fun w => (inr tt, with_cache (delete key) w).

(** ** The result cache *)

Definition CACHE_TTL_MS : Z := 10 * 60 * 1000.

Definition setCache (key : string) (v : json) : M unit :=
  let* now := Date_now in
  cache_set key {| value := v; expires := now + CACHE_TTL_MS |}.

Definition getCache (key : string) : M json :=
  let* v := cache_get key in
  match v with
  | None => ret JNull
  | Some v =>
      let* now := Date_now in
      if (now >? expires v)%Z
      then cache_delete key ;;; ret JNull
      else ret (value v)
  end.

(** ** What the program takes from its runtime

    The built-ins whose behaviour the program relies on without
    defining it, and the process environment read at start-up.
    [URL s] is [new URL(s)], [None] when the constructor throws;
    [JSON_parse v] is [JSON.parse(v)]; [trim_TypeError] is the
    [TypeError] raised by calling [.trim] on a value that has no
    such method. *)

Class Runtime : Type := {
  URLobject : Type;
  URL : string -> option URLobject;
  URL_toString : URLobject -> string;
  URL_hostname : URLobject -> string;
  JSON_parse : json -> Error + json;
  trim_TypeError : Error;
  env_GROQ_API_KEY : option string
}.

(** A double quote, and a text in which [~] stands for one. *)
Definition dquote : ascii := ascii_of_N 34.

Fixpoint quoted (s : string) : string :=
  match s with
  | EmptyString => EmptyString
  | String c s' => String (if Ascii.eqb c "~" then dquote else c) (quoted s')
  end.

(** An HTTP response sent with [res.status(code).json(payload)]. *)
Record Reply : Type := { code : N; payload : json }.

(** An incoming request: [req.body], [None] when it is [undefined]. *)
Record HttpRequest : Type := { req_body : option json }.

Section Program.

Context {runtime : Runtime}.

Definition GROQ_API_KEY : string :=
  JS.str_or_else env_GROQ_API_KEY "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".

Definition GROQ_ENDPOINT : string := "https://api.groq.com/openai/v1/chat/completions".

(** [/^https?:\/\//i.test(input)]: the pattern's letters match in
    either case. *)
Fixpoint startsWithIgnoreCase (s p : string) : bool :=
  match p, s with
  | EmptyString, _ => true
  | String a p', String b s' =>
      Ascii.eqb (JS.lowerChar a) (JS.lowerChar b) && startsWithIgnoreCase s' p'
  | String _ _, EmptyString => false
  end.

Definition hasProto (input : string) : bool :=
  startsWithIgnoreCase input "http://" || startsWithIgnoreCase input "https://".

(** The argument [normalizeUrl] hands to [new URL]. *)
Definition withProto (input : string) : string :=
  if hasProto input then input else "https://" +:+ input.

Definition normalizeUrl (input : string) : option string :=
  match URL (withProto input) with
  | Some url => Some (URL_toString url)
  | None => None
  end.

Definition isAllowedUrl (url : string) : bool :=
  match URL url with
  | Some u =>
      let hostname := JS.toLowerCase (URL_hostname u) in
      if String.eqb hostname "localhost"
         || JS.endsWith hostname ".localhost"
         || JS.endsWith hostname ".local"
         || JS.endsWith hostname ".internal"
         || String.eqb hostname "127.0.0.1"
         || String.eqb hostname "0.0.0.0"
      then false
      else true
  | None => false
  end.

Definition MAX_HTML_LENGTH : Z := 800000.

Definition siteRequest (targetUrl : string) : Request :=
  {| target := targetUrl;
     method := "GET";
     redirect := Some "follow";
     signal := Some 15000%Z;
     headers :=
       [("User-Agent", "Mozilla/5.0 (X11; Linux x86_64) AppleWebKit/537.36 (KHTML, like Gecko) Chrome/122.0.0.0 Safari/537.36 RESEARCH-WEB/1.0");
        ("Accept", "text/html,application/xhtml+xml,application/xml;q=0.9,*/*;q=0.8")];
     body := None |}.

(** The [finally] block only clears the timer behind [signal]. *)
Definition fetchSiteHTML (targetUrl : string) : M string :=
  let* res := fetch (siteRequest targetUrl) in
  if negb (ok res)
  then throw (mkError ("Upstream fetch failed: " +:+ JS.showN (status res)
                       +:+ " " +:+ statusText res))
  else
    let* html := await (text res) in
    ret (if (JS.length html >? MAX_HTML_LENGTH)%Z
         then JS.slice html 0 MAX_HTML_LENGTH
         else html).

Definition promptIntro : string :=
  quoted "Analyze the following website using its URL and raw HTML.
URL: ".

Definition promptSchema : string :=
  quoted "

Return a strict JSON object with this schema:

{
  ~site~: {
    ~url~: ~string~,
    ~title~: ~string~,
    ~description~: ~string~,
    ~language~: ~string~,
    ~frameworks~: [~string~],
    ~libraries~: [~string~],
    ~cms~: ~string | null~,
    ~runtime~: ~string | null~,
    ~hosting~: ~string | null~,
    ~cdn~: ~string | null~,
    ~analytics~: [~string~],
    ~tag_managers~: [~string~],
    ~seo~: {
      ~meta_title~: ~string~,
      ~meta_description~: ~string~,
      ~h1~: ~string | null~,
      ~canonical~: ~string | null~,
      ~schema_org~: [~string~]
    },
    ~performance~: {
      ~page_weight_kb~: ~number~,
      ~image_optimization~: ~string~,
      ~lazy_loading~: ~boolean~,
      ~script_count~: ~number~,
      ~notable_third_parties~: [~string~]
    },
    ~ads~: {
      ~has_ads~: ~boolean~,
      ~ad_networks~: [~string~],
      ~placements~: [~string~]
    },
    ~monetization~: {
      ~models~: [~string~], 
      ~subscriptions~: ~boolean~,
      ~affiliate~: ~boolean~,
      ~ecommerce~: ~boolean~
    },
    ~privacy_security~: {
      ~cookie_banner~: ~boolean~,
      ~gdpr_ccpa_mentions~: [~string~],
      ~security_headers~: [~string~]
    },
    ~audience~: {
      ~target_segments~: [~string~],
      ~regions~: [~string~]
    },
    ~competitors~: [~string~],
    ~traffic_estimate~: {
      ~confidence~: ~low | medium | high~,
      ~monthly_visits_range~: ~string~
    },
    ~contact~: {
      ~emails~: [~string~],
      ~phones~: [~string~],
      ~socials~: [~string~]
    },
    ~key_features~: [~string~],
    ~summary~: ~string~,
    ~recommendations~: [~string~]
  }
}

Rules:
- Base findings ONLY on provided HTML and URL; infer cautiously and mark confidence via 'traffic_estimate.confidence'.
- Populate arrays with distinct items; avoid duplicates.
- If unknown, use null or empty array appropriately.
- Keep descriptions concise and concrete.
- Ensure valid JSON and correct types.

HTML BEGIN
".

Definition promptOutro : string :=
  quoted "
HTML END".

Definition buildPrompt (url html : string) : json :=
  JArr
    [JObj [("role", JStr "system");
           ("content", JStr "You are RESEARCH-WEB, an expert web intelligence analyst. Return ONLY strict JSON. Do not include markdown, prose, or code fences.")];
     JObj [("role", JStr "user");
           ("content", JStr (promptIntro +:+ url +:+ promptSchema +:+ html +:+ promptOutro))]].

(** The body is the object handed to [JSON.stringify]. *)
Definition groqRequest (prompt : json) : Request :=
  {| target := GROQ_ENDPOINT;
     method := "POST";
     redirect := None;
     signal := None;
     headers :=
       [("Authorization", "Bearer " +:+ GROQ_API_KEY);
        ("Content-Type", "application/json")];
     body :=
       Some (JObj [("model", JStr "llama-3.1-70b-versatile");
                   ("temperature", JNum (2 # 10));
                   ("max_tokens", JNum (inject_Z 2000));
                   ("response_format", JObj [("type", JStr "json_object")]);
                   ("messages", prompt)]) |}.

(** [data?.choices?.[0]?.message?.content]. *)
Definition contentOf (data : json) : option json :=
  JS.chain
    (JS.chain
       (JS.chain
          (JS.chain (Some data) (fun v => JS.member v "choices"))
          JS.item0)
       (fun v => JS.member v "message"))
    (fun v => JS.member v "content").

Definition callGroq (prompt : json) : M json :=
  let* res := fetch (groqRequest prompt) in
  if negb (ok res)
  then
    let text := settle_or (text res) "" in
    throw (mkError ("Groq API error: " +:+ JS.showN (status res) +:+ " "
                    +:+ statusText res +:+ " " +:+ text))
  else
    let* data := await (json_body res) in
    let content := contentOf data in
    match content with
    | Some c =>
        if JS.truthy c
        then await (JSON_parse c)
        else throw (mkError "Groq API returned no content")
    | None => throw (mkError "Groq API returned no content")
    end.

Definition respond (code : N) (payload : json) : M Reply :=
  ret {| code := code; payload := payload |}.

(** [(req.body?.url || '').trim()]. *)
Definition rawUrlOf (req : HttpRequest) : M string :=
  match JS.or_else (JS.chain (req_body req) (fun b => JS.member b "url")) (JStr "") with
  | JStr s => ret (JS.trim s)
  | _ => throw trim_TypeError
  end.

(** The handler of [POST /analyze]; [console.error] is left out. *)
Definition analyze (req : HttpRequest) : M Reply :=
  try_catch
    (let* rawUrl := rawUrlOf req in
     match normalizeUrl rawUrl with
     | None => respond 400 (JObj [("error", JStr "Invalid URL")])
     | Some url =>
         if String.eqb url ""
         then respond 400 (JObj [("error", JStr "Invalid URL")])
         else if negb (isAllowedUrl url)
         then respond 400 (JObj [("error", JStr "URL not allowed")])
         else
           let* cached := getCache url in
           if JS.truthy cached
           then respond 200 (JObj [("cached", JBool true); ("data", cached)])
           else
             let* html := fetchSiteHTML url in
             let prompt := buildPrompt url html in
             let* analysis := callGroq prompt in
             setCache url analysis ;;;
             respond 200 (JObj [("cached", JBool false); ("data", analysis)])
     end)
    (fun err =>
       respond 500
         (JObj [("error", JStr (JS.str_or_else (Some (message err)) "Analysis failed"))])).

End Program.

(** ** A reference runtime

    The general results below hold for every [Runtime]. To evaluate
    the program on concrete addresses, the modules below give one:
    the URL Standard's parser and serialiser for [http] and [https]
    addresses whose host is a plain ASCII domain or an IPv4 address,
    and a reader for JSON text.

    Left out of the reference, which answers failure for them: other
    schemes, hosts written with percent escapes, with [xn--] labels,
    with code units above 127 or in brackets (IPv6). *)

Module Whatwg.

Definition code := JS.code.

Definition isCode (c : ascii) (n : N) : bool := (code c =? n)%N.

Fixpoint all (p : ascii -> bool) (s : string) : bool :=
  match s with
  | EmptyString => true
  | String c s' => p c && all p s'
  end.

Definition any (p : ascii -> bool) (s : string) : bool :=
  negb (all (fun c => negb (p c)) s).

Fixpoint keep (p : ascii -> bool) (s : string) : string :=
  match s with
  | EmptyString => EmptyString
  | String c s' => if p c then String c (keep p s') else keep p s'
  end.

(** The longest prefix of code units satisfying [p], and the rest. *)
Fixpoint span (p : ascii -> bool) (s : string) : string * string :=
  match s with
  | EmptyString => (EmptyString, EmptyString)
  | String c s' =>
      if p c then let (a, b) := span p s' in (String c a, b)
      else (EmptyString, s)
  end.

(** Strictly split on the code units satisfying [p]. *)
Fixpoint split (p : ascii -> bool) (s : string) : list string :=
  match s with
  | EmptyString => [EmptyString]
  | String c s' =>
      if p c then EmptyString :: split p s'
      else match split p s' with
           | [] => [String c EmptyString]
           | x :: xs => String c x :: xs
           end
  end.

Fixpoint flatMap (f : ascii -> string) (s : string) : string :=
  match s with
  | EmptyString => EmptyString
  | String c s' => f c +:+ flatMap f s'
  end.

Definition isC0OrSpace (c : ascii) : bool := (code c <=? 32)%N.
Definition isTabOrNewline (c : ascii) : bool := isCode c 9 || isCode c 10 || isCode c 13.
Definition isAlpha (c : ascii) : bool :=
  ((65 <=? code c) && (code c <=? 90) || (97 <=? code c) && (code c <=? 122))%N.
Definition isDigit (c : ascii) : bool := ((48 <=? code c) && (code c <=? 57))%N.
Definition isSchemeChar (c : ascii) : bool :=
  isAlpha c || isDigit c || isCode c 43 || isCode c 45 || isCode c 46.
Definition isSlash (c : ascii) : bool := isCode c 47 || isCode c 92.
Definition isAuthorityEnd (c : ascii) : bool := isSlash c || isCode c 63 || isCode c 35.

Definition asciiLowerChar (c : ascii) : ascii :=
  if ((65 <=? code c) && (code c <=? 90))%N then ascii_of_N (code c + 32) else c.

Definition asciiLower (s : string) : string :=
  flatMap (fun c => String (asciiLowerChar c) EmptyString) s.

(** *** Percent-encode sets *)

Definition inC0ControlSet (c : ascii) : bool := ((code c <=? 31) || (126 <? code c))%N.
Definition inFragmentSet (c : ascii) : bool :=
  inC0ControlSet c || isCode c 32 || isCode c 34 || isCode c 60 || isCode c 62 || isCode c 96.
Definition inQuerySet (c : ascii) : bool :=
  inC0ControlSet c || isCode c 32 || isCode c 34 || isCode c 35 || isCode c 60 || isCode c 62.
Definition inSpecialQuerySet (c : ascii) : bool := inQuerySet c || isCode c 39.
Definition inPathSet (c : ascii) : bool :=
  inQuerySet c || isCode c 63 || isCode c 94 || isCode c 96 || isCode c 123 || isCode c 125.
Definition inUserinfoSet (c : ascii) : bool :=
  inPathSet c || isCode c 47 || isCode c 58 || isCode c 59 || isCode c 61 || isCode c 64
  || isCode c 91 || isCode c 92 || isCode c 93 || isCode c 124.

Definition hexDigit (n : N) : ascii :=
  if (n <? 10)%N then ascii_of_N (48 + n) else ascii_of_N (55 + n).

Definition percentByte (n : N) : string :=
  String "%" (String (hexDigit (n / 16)) (String (hexDigit (n mod 16)) EmptyString)).

(** The UTF-8 bytes of a code point below 256, percent-encoded. *)
Definition percentUtf8 (c : ascii) : string :=
  if (code c <? 128)%N then percentByte (code c)
  else percentByte (192 + code c / 64) +:+ percentByte (128 + code c mod 64).

Definition percentEncode (set : ascii -> bool) (s : string) : string :=
  flatMap (fun c => if set c then percentUtf8 c else String c EmptyString) s.

(** *** Hosts *)

Definition isForbiddenDomainCodePoint (c : ascii) : bool :=
  (code c <=? 32)%N || isCode c 35 || isCode c 37 || isCode c 47 || isCode c 58 || isCode c 60
  || isCode c 62 || isCode c 63 || isCode c 64 || isCode c 91 || isCode c 92 || isCode c 93
  || isCode c 94 || isCode c 124 || isCode c 127.

Definition digitValue (c : ascii) : N :=
  if isDigit c then code c - 48
  else if ((97 <=? code c) && (code c <=? 102))%N then code c - 87
  else if ((65 <=? code c) && (code c <=? 70))%N then code c - 55
  else 255.

Definition isRadixDigit (r : N) (c : ascii) : bool := (digitValue c <? r)%N.

Fixpoint valueIn (r : N) (acc : N) (s : string) : N :=
  match s with
  | EmptyString => acc
  | String c s' => valueIn r (acc * r + digitValue c) s'
  end.

(** The IPv4 number parser. *)
Definition parseIPv4Number (s : string) : option N :=
  match s with
  | EmptyString => None
  | String a (String b rest) =>
      if isCode a 48 && (isCode b 120 || isCode b 88)
      then if all (isRadixDigit 16) rest then Some (valueIn 16 0 rest) else None
      else if isCode a 48
      then if all (isRadixDigit 8) (String b rest)
           then Some (valueIn 8 0 (String b rest)) else None
      else if all (isRadixDigit 10) s then Some (valueIn 10 0 s) else None
  | _ => if all (isRadixDigit 10) s then Some (valueIn 10 0 s) else None
  end.

(** The parts of a dotted host, a trailing empty part dropped when it
    is not the only one. *)
Definition dottedParts (s : string) : list string :=
  let parts := split (fun c => isCode c 46) s in
  match rev parts with
  | EmptyString :: (_ :: _) as more => rev more
  | _ => parts
  end.

(** The ends-in-a-number checker. *)
Definition endsInNumber (s : string) : bool :=
  match rev (dottedParts s) with
  | [] => false
  | last :: _ =>
      (negb (String.eqb last "") && all isDigit last)
      || match parseIPv4Number last with Some _ => true | None => false end
  end.

Fixpoint parseNumbers (parts : list string) : option (list N) :=
  match parts with
  | [] => Some []
  | p :: ps =>
      match parseIPv4Number p, parseNumbers ps with
      | Some n, Some ns => Some (n :: ns)
      | _, _ => None
      end
  end.

(** The address as a number: the last number, and each earlier one at
    its byte position. *)
Fixpoint ipv4Sum (numbers : list N) (counter : N) : option N :=
  match numbers with
  | [] => None
  | [last] => Some last
  | n :: more =>
      if (255 <? n)%N then None
      else option_map (fun r => n * 256 ^ (3 - counter) + r)%N (ipv4Sum more (counter + 1))
  end.

(** The IPv4 parser. *)
Definition parseIPv4 (s : string) : option N :=
  let parts := dottedParts s in
  if (4 <? List.length parts)%nat then None
  else match parseNumbers parts with
       | Some numbers =>
           if (List.last numbers 0 <? 256 ^ (5 - N.of_nat (List.length numbers)))%N
           then ipv4Sum numbers 0
           else None
       | None => None
       end.

Definition serializeIPv4 (n : N) : string :=
  JS.showN (n / 16777216) +:+ "." +:+ JS.showN (n / 65536 mod 256) +:+ "."
  +:+ JS.showN (n / 256 mod 256) +:+ "." +:+ JS.showN (n mod 256).

Definition hasPunycodeLabel (s : string) : bool :=
  existsb (fun label => JS.startsWith label "xn--") (split (fun c => isCode c 46) s).

(** The host parser on a host of a special scheme, serialised. *)
Definition parseHost (input : string) : option string :=
  if any (fun c => isCode c 91 || isCode c 37 || (127 <? code c)%N) input then None
  else
    let domain := asciiLower input in
    if hasPunycodeLabel domain then None
    else if String.eqb domain "" then None
    else if any isForbiddenDomainCodePoint domain then None
    else if endsInNumber domain
    then option_map serializeIPv4 (parseIPv4 domain)
    else Some domain.

(** *** URL records *)

Record url : Type := {
  scheme : string;
  username : string;
  password : string;
  host : string;
  port : option N;
  path : list string;
  query : option string;
  fragment : option string
}.

Definition defaultPort (scheme : string) : N :=
  if String.eqb scheme "http" then 80 else 443.

Definition stripTrailing (s : string) : string :=
  let fix go (s : string) : string :=
    match s with
    | EmptyString => EmptyString
    | String c s' =>
        match go s' with
        | EmptyString => if isC0OrSpace c then EmptyString else String c EmptyString
        | t => String c t
        end
    end in go s.

(** Leading and trailing C0 controls and spaces are removed, then all
    tabs and newlines. *)
Definition preprocess (input : string) : string :=
  keep (fun c => negb (isTabOrNewline c))
       (stripTrailing (snd (span isC0OrSpace input))).

(** The scheme state: an ASCII letter, then letters, digits, [+], [-]
    and [.], up to a colon. Gives the scheme in lower case and what
    follows the colon. *)
Definition parseScheme (s : string) : option (string * string) :=
  match s with
  | String c _ =>
      if isAlpha c then
        match span isSchemeChar s with
        | (name, String colon rest) =>
            if isCode colon 58 then Some (asciiLower name, rest) else None
        | _ => None
        end
      else None
  | EmptyString => None
  end.

(** The text of the authority after its last [@], and the credentials
    before it with every earlier [@] written [%40]. *)
Definition splitCredentials (authority : string) : option string * string :=
  match rev (split (fun c => isCode c 64) authority) with
  | [] => (None, authority)
  | [hostport] => (None, hostport)
  | hostport :: chunks => (Some (String.concat "%40" (rev chunks)), hostport)
  end.

Definition isDoubleDot (seg : string) : bool :=
  let s := asciiLower seg in
  String.eqb s ".." || String.eqb s ".%2e" || String.eqb s "%2e." || String.eqb s "%2e%2e".

Definition isSingleDot (seg : string) : bool :=
  let s := asciiLower seg in String.eqb s "." || String.eqb s "%2e".

(** The path state, one segment at a time; [acc] is the path so far. *)
Fixpoint parsePath (acc : list string) (segments : list string) : list string :=
  match segments with
  | [] => acc
  | seg :: more =>
      let buffer := percentEncode inPathSet seg in
      let isLast := match more with [] => true | _ => false end in
      let acc' :=
        if isDoubleDot buffer
        then (if isLast then removelast acc ++ [EmptyString] else removelast acc)
        else if isSingleDot buffer
        then (if isLast then acc ++ [EmptyString] else acc)
        else acc ++ [buffer] in
      parsePath acc' more
  end.

(** The port state: digits only; a value above 65535 fails; the
    scheme's default port is not kept. *)
Definition parsePort (scheme digits : string) : option (option N) :=
  if all isDigit digits then
    if String.eqb digits "" then Some None
    else
      let n := valueIn 10 0 digits in
      if (65535 <? n)%N then None
      else Some (if (n =? defaultPort scheme)%N then None else Some n)
  else None.

(** The basic URL parser, without a base URL. *)
Definition parse (input : string) : option url :=
  match parseScheme (preprocess input) with
  | None => None
  | Some (scheme, afterColon) =>
      if negb (String.eqb scheme "http" || String.eqb scheme "https") then None
      else
        let (authority, afterAuthority) :=
          span (fun c => negb (isAuthorityEnd c)) (snd (span isSlash afterColon)) in
        let (credentials, hostport) := splitCredentials authority in
        if match credentials with Some _ => String.eqb hostport "" | None => false end
        then None
        else
          let (hostText, afterHost) := span (fun c => negb (isCode c 58)) hostport in
          if String.eqb hostText "" then None
          else
            match parseHost hostText,
                  parsePort scheme (match afterHost with
                                    | String _ digits => digits
                                    | EmptyString => EmptyString
                                    end) with
            | Some host, Some port =>
                let (user, pass) :=
                  match credentials with
                  | Some text =>
                      let (u, p) := span (fun c => negb (isCode c 58)) text in
                      (percentEncode inUserinfoSet u,
                       percentEncode inUserinfoSet
                         (match p with String _ p' => p' | EmptyString => EmptyString end))
                  | None => (EmptyString, EmptyString)
                  end in
                let (pathText, afterPath) :=
                  span (fun c => negb (isCode c 63 || isCode c 35)) afterAuthority in
                let segments :=
                  split isSlash
                    (match pathText with
                     | String c rest => if isSlash c then rest else pathText
                     | EmptyString => EmptyString
                     end) in
                let (queryText, afterQuery) :=
                  match afterPath with
                  | String c rest =>
                      if isCode c 63
                      then let (q, r) := span (fun c => negb (isCode c 35)) rest in (Some q, r)
                      else (None, afterPath)
                  | EmptyString => (None, EmptyString)
                  end in
                Some {| scheme := scheme;
                        username := user;
                        password := pass;
                        host := host;
                        port := port;
                        path := parsePath [] segments;
                        query := option_map (percentEncode inSpecialQuerySet) queryText;
                        fragment :=
                          match afterQuery with
                          | String _ f => Some (percentEncode inFragmentSet f)
                          | EmptyString => None
                          end |}
            | _, _ => None
            end
  end.

(** The URL serialiser ([href], [toString()]). *)
Definition serialize (u : url) : string :=
  scheme u +:+ "://"
  +:+ (if String.eqb (username u) "" && String.eqb (password u) "" then ""
       else username u
            +:+ (if String.eqb (password u) "" then "" else ":" +:+ password u)
            +:+ "@")
  +:+ host u
  +:+ match port u with Some p => ":" +:+ JS.showN p | None => "" end
  +:+ String.concat "" (map (fun seg => "/" +:+ seg) (path u))
  +:+ match query u with Some q => "?" +:+ q | None => "" end
  +:+ match fragment u with Some f => "#" +:+ f | None => "" end.

End Whatwg.

(** *** A reader for JSON text

    The JSON grammar, with numbers as the rationals they denote (not
    rounded to doubles) and [\u] escapes below 256. *)

Module Json.

Import Whatwg.

Definition isWs (c : ascii) : bool :=
  isCode c 32 || isCode c 9 || isCode c 10 || isCode c 13.

Definition skipWs (s : string) : string := snd (span isWs s).

Definition hex4 (a b c d : ascii) : option N :=
  if all (isRadixDigit 16) (String a (String b (String c (String d EmptyString))))
  then Some (valueIn 16 0 (String a (String b (String c (String d EmptyString)))))
  else None.

Definition escaped (e : ascii) : option ascii :=
  if isCode e 34 || isCode e 92 || isCode e 47 then Some e
  else if isCode e 98 then Some (ascii_of_N 8)
  else if isCode e 102 then Some (ascii_of_N 12)
  else if isCode e 110 then Some (ascii_of_N 10)
  else if isCode e 114 then Some (ascii_of_N 13)
  else if isCode e 116 then Some (ascii_of_N 9)
  else None.

(** The rest of a string literal, after its opening quote. *)
Fixpoint readString (s : string) : option (string * string) :=
  let cons (c : ascii) (r : option (string * string)) :=
    match r with
    | Some (t, rest) => Some (String c t, rest)
    | None => None
    end in
  match s with
  | EmptyString => None
  | String c r =>
      if isCode c 34 then Some (EmptyString, r)
      else if isCode c 92 then
        match r with
        | String e r1 =>
            if isCode e 117 then
              match r1 with
              | String h1 (String h2 (String h3 (String h4 r2))) =>
                  match hex4 h1 h2 h3 h4 with
                  | Some n => if (n <? 256)%N then cons (ascii_of_N n) (readString r2) else None
                  | None => None
                  end
              | _ => None
              end
            else
              match escaped e with
              | Some x => cons x (readString r1)
              | None => None
              end
        | EmptyString => None
        end
      else if (code c <? 32)%N then None
      else cons c (readString r)
  end.

Definition pow10 (e : Z) : Q :=
  if (0 <=? e)%Z then inject_Z (10 ^ e) else 1 # Z.to_pos (10 ^ (- e)).

(** A number: [-]? int frac? exp?. *)
Definition readNumber (s : string) : option (Q * string) :=
  let (neg, s1) :=
    match s with
    | String c r => if isCode c 45 then (true, r) else (false, s)
    | EmptyString => (false, s)
    end in
  let (int, s2) := span isDigit s1 in
  let (frac, s3) :=
    match s2 with
    | String c r => if isCode c 46 then span isDigit r else (EmptyString, s2)
    | EmptyString => (EmptyString, s2)
    end in
  let fracOk :=
    match s2 with
    | String c _ => negb (isCode c 46) || negb (String.eqb frac "")
    | EmptyString => true
    end in
  let '(expOk, exp, s4) :=
    match s3 with
    | String c r =>
        if isCode c 101 || isCode c 69 then
          let (sign, r1) :=
            match r with
            | String d r' =>
                if isCode d 45 then ((-1)%Z, r')
                else if isCode d 43 then (1%Z, r') else (1%Z, r)
            | EmptyString => (1%Z, r)
            end in
          let (digits, r2) := span isDigit r1 in
          (negb (String.eqb digits ""), (sign * Z.of_N (valueIn 10 0 digits))%Z, r2)
        else (true, 0%Z, s3)
    | EmptyString => (true, 0%Z, s3)
    end in
  let intOk :=
    match int with
    | EmptyString => false
    | String c (String _ _) => negb (isCode c 48)
    | _ => true
    end in
  if intOk && fracOk && expOk then
    let m := Z.of_N (valueIn 10 0 (int +:+ frac)) in
    let q := Qmult (inject_Z (if neg then - m else m))
                   (pow10 (exp - JS.length frac)) in
    Some (Qred q, s4)
  else None.

Fixpoint readValue (fuel : nat) (s : string) : option (json * string) :=
  match fuel with
  | O => None
  | S fuel' =>
      match skipWs s with
      | EmptyString => None
      | String c r as t =>
          if JS.startsWith t "null" then Some (JNull, JS.drop 4 t)
          else if JS.startsWith t "true" then Some (JBool true, JS.drop 4 t)
          else if JS.startsWith t "false" then Some (JBool false, JS.drop 5 t)
          else if isCode c 34 then
            match readString r with
            | Some (str, rest) => Some (JStr str, rest)
            | None => None
            end
          else if isCode c 91 then
            match skipWs r with
            | String d r' as items =>
                if isCode d 93 then Some (JArr [], r')
                else match readItems fuel' items with
                     | Some (vs, rest) => Some (JArr vs, rest)
                     | None => None
                     end
            | EmptyString => None
            end
          else if isCode c 123 then
            match skipWs r with
            | String d r' as fields =>
                if isCode d 125 then Some (JObj [], r')
                else match readFields fuel' fields with
                     | Some (fs, rest) => Some (JObj fs, rest)
                     | None => None
                     end
            | EmptyString => None
            end
          else
            match readNumber t with
            | Some (q, rest) => Some (JNum q, rest)
            | None => None
            end
      end
  end
with readItems (fuel : nat) (s : string) : option (list json * string) :=
  match fuel with
  | O => None
  | S fuel' =>
      match readValue fuel' s with
      | Some (v, r) =>
          match skipWs r with
          | String c r' =>
              if isCode c 93 then Some ([v], r')
              else if isCode c 44 then
                match readItems fuel' r' with
                | Some (vs, rest) => Some (v :: vs, rest)
                | None => None
                end
              else None
          | EmptyString => None
          end
      | None => None
      end
  end
with readFields (fuel : nat) (s : string) : option (list (string * json) * string) :=
  match fuel with
  | O => None
  | S fuel' =>
      match skipWs s with
      | String q afterQuote =>
          if isCode q 34 then
            match readString afterQuote with
            | Some (key, r0) =>
                match skipWs r0 with
                | String colon r1 =>
                    if isCode colon 58 then
                      match readValue fuel' r1 with
                      | Some (v, r) =>
                          match skipWs r with
                          | String c r' =>
                              if isCode c 125 then Some ([(key, v)], r')
                              else if isCode c 44 then
                                match readFields fuel' r' with
                                | Some (fs, rest) => Some ((key, v) :: fs, rest)
                                | None => None
                                end
                              else None
                          | EmptyString => None
                          end
                      | None => None
                      end
                    else None
                | EmptyString => None
                end
            | None => None
            end
          else None
      | EmptyString => None
      end
  end.

(** A later field of the same name replaces an earlier one. *)
Fixpoint lastWins (v : json) : json :=
  match v with
  | JArr items => JArr (map lastWins items)
  | JObj fields =>
      JObj ((fix go (fs : list (string * json)) : list (string * json) :=
               match fs with
               | [] => []
               | (k, x) :: rest =>
                   let rest' := go rest in
                   if existsb (fun kv => String.eqb (fst kv) k) rest'
                   then rest' else (k, lastWins x) :: rest'
               end) fields)
  | _ => v
  end.

(** The engine words its [SyntaxError] after the offending token; the
    reference has one message for every refusal. *)
Definition SyntaxError : Error := mkError "Unexpected token in JSON".

(** [JSON.parse] of a text: one value, white space around it. *)
Definition parseText (s : string) : Error + json :=
  match readValue (S (2 * String.length s)) s with
  | Some (v, rest) =>
      if String.eqb (skipWs rest) "" then inr (lastWins v) else inl SyntaxError
  | None => inl SyntaxError
  end.

(** [JSON.parse] of a value: a string is read; a number, a boolean or
    [null] is its own text, read back. An array or an object given as
    argument is outside the reference. *)
Definition parse (v : json) : Error + json :=
  match v with
  | JStr s => parseText s
  | JNull | JBool _ | JNum _ => inr v
  | JArr _ | JObj _ => inl SyntaxError
  end.

End Json.

(** The reference runtime, for a given [GROQ_API_KEY] entry of the
    process environment. *)
Definition reference (key : option string) : Runtime :=
  {| URLobject := Whatwg.url;
     URL := Whatwg.parse;
     URL_toString := Whatwg.serialize;
     URL_hostname := Whatwg.host;
     JSON_parse := Json.parse;
     trim_TypeError := mkError "(intermediate value).trim is not a function";
     env_GROQ_API_KEY := key |}.

(** ** Vocabulary of the results *)

(** The world once [Date.now()] has been read. *)
Definition ticked (w : World) : World :=
  {| cache := cache w; clock := clock w; ticks := S (ticks w);
     network := network w; calls := calls w |}.

(** The world once [req] has been handed to [fetch]. *)
Definition sent (req : Request) (w : World) : World :=
  {| cache := cache w; clock := clock w; ticks := ticks w;
     network := network w; calls := calls w ++ [req] |}.

Definition noContent : Error := mkError "Groq API returned no content".

(** The replies of the interface. *)
Definition errorReply (code : N) (text : string) : Reply :=
  {| code := code; payload := JObj [("error", JStr text)] |}.

Definition dataReply (fromCache : bool) (data : json) : Reply :=
  {| code := 200; payload := JObj [("cached", JBool fromCache); ("data", data)] |}.

(** [err.message || 'Analysis failed']. *)
Definition diagnostic (e : Error) : string :=
  if String.eqb (message e) "" then "Analysis failed" else message e.

(** A request whose body is [{ url: s }]. *)
Definition post (s : string) : HttpRequest :=
  {| req_body := Some (JObj [("url", JStr s)]) |}.

(** *** Test doubles

    A page that answers 200 with a fixed body, a model service that
    answers 200 with a given content, a network made of the two, and
    a network that is down. *)

Definition mockSite : Response :=
  {| status := 200;
     statusText := "OK";
     text := inr "<html><head><title>Example</title></head></html>";
     json_body := inl (mkError "Unexpected token < in JSON") |}.

Definition mockModel (content : json) : Response :=
  {| status := 200;
     statusText := "OK";
     text := inr "";
     json_body :=
       inr (JObj [("choices",
                   JArr [JObj [("message",
                                JObj [("role", JStr "assistant");
                                      ("content", content)])]])]) |}.

Definition mockNetwork (content : json) (n : nat) (req : Request) : Error + Response :=
  if String.eqb (target req) "https://api.groq.com/openai/v1/chat/completions"
  then inr (mockModel content)
  else inr mockSite.

Definition downNetwork (n : nat) (req : Request) : Error + Response :=
  inl (mkError "connect ECONNREFUSED").

(** A world with the given cache and network, whose clock reads [t k]
    at its k-th reading. *)
Definition worldOf (c : gmap string CacheEntry) (t : nat -> Z)
    (net : nat -> Request -> Error + Response) : World :=
  {| cache := c; clock := t; ticks := 0; network := net; calls := [] |}.

(** The denylist in the words of the interface: three exact names
    and three suffixes. *)
Definition denylisted (hostname : string) : Prop :=
  hostname = "localhost" \/ hostname = "127.0.0.1" \/ hostname = "0.0.0.0"
  \/ (exists p, hostname = p +:+ ".localhost")
  \/ (exists p, hostname = p +:+ ".local")
  \/ (exists p, hostname = p +:+ ".internal").

(** An address that begins with [http://] or [https://], in any case. *)
Definition beginsWithWebScheme (t : string) : Prop :=
  exists p rest, t = p +:+ rest
    /\ (JS.toLowerCase p = "http://" \/ JS.toLowerCase p = "https://").

(** The value of a request header. *)
Fixpoint header (name : string) (hs : list (string * string)) : option string :=
  match hs with
  | [] => None
  | (k, v) :: rest => if String.eqb k name then Some v else header name rest
  end.

(** Worlds for the examples: an empty cache, a clock that stands at
    1000, and the mocked page with a model that answers [content]; the
    same with the network down. *)
Definition quietWorld (content : json) : World :=
  worldOf ∅ (fun _ => 1000%Z) (mockNetwork content).

Definition offlineWorld : World := worldOf ∅ (fun _ => 1000%Z) downNetwork.


(** The last code unit of a text. *)
Fixpoint lastChar (s : string) : option ascii :=
  match s with
  | EmptyString => None
  | String c EmptyString => Some c
  | String _ rest => lastChar rest
  end.

(** A world whose cache holds one entry, for [https://example.com/],
    valid until the clock reads 2000; the clock stands at 1000 and the
    network is down. *)
Definition warmWorld (v : json) : World :=
  worldOf {[ "https://example.com/" := {| value := v; expires := 2000 |} ]}
          (fun _ => 1000%Z) downNetwork.

(** A page that answers 404 with a body. *)
Definition missingPage : Response :=
  {| status := 404;
     statusText := "Not Found";
     text := inr "<html>gone</html>";
     json_body := inl (mkError "Unexpected token < in JSON") |}.

Definition notFoundNetwork (n : nat) (req : Request) : Error + Response :=
  inr missingPage.

(** Requests whose [url] is not a string: the JSON body [{"url": 5}],
    and the form body [url=a&url=b], which the urlencoded parser reads
    as an array. *)
Definition numberUrl : HttpRequest :=
  {| req_body := Some (JObj [("url", JNum (inject_Z 5))]) |}.

Definition repeatedUrl : HttpRequest :=
  {| req_body := Some (JObj [("url", JArr [JStr "a"; JStr "b"])]) |}.

(** From what the lookup did to the cache to what the request did. *)
Ltac lookup_effect Hc raw url :=
  let e0 := fresh "e0" in
  let H1 := fresh in let H2 := fresh in let H3 := fresh in
  destruct Hc as [Hc|(e0 & H1 & H2 & H3)];
  [left; exact Hc | right; exists raw, url, e0; auto].

(** * Results *)

(** ** Strings *)

Section StringFacts.

Lemma str_app_nil_l (t : string) : "" +:+ t = t.
Proof. reflexivity. Qed.

Lemma str_app_cons (c : ascii) (s t : string) : String c s +:+ t = String c (s +:+ t).
Proof. reflexivity. Qed.

Lemma lengthN_app (s t : string) :
  JS.lengthN (s +:+ t) = (JS.lengthN s + JS.lengthN t)%N.
Proof.
  induction s as [|c s IH]; [reflexivity|].
  rewrite str_app_cons. cbn [JS.lengthN]. rewrite IH. lia.
Qed.

Lemma length_nonneg (s : string) : (0 <= JS.length s)%Z.
Proof. unfold JS.length. lia. Qed.

Lemma length_cons (c : ascii) (s : string) :
  JS.length (String c s) = (JS.length s + 1)%Z.
Proof. unfold JS.length. cbn [JS.lengthN]. lia. Qed.

Lemma length_app (s t : string) : JS.length (s +:+ t) = (JS.length s + JS.length t)%Z.
Proof. unfold JS.length. rewrite lengthN_app. lia. Qed.

Lemma take_drop (n : nat) (s : string) : JS.take n s +:+ JS.drop n s = s.
Proof.
  revert s. induction n as [|n IH]; intros [|c s]; try reflexivity.
  cbn [JS.take JS.drop]. rewrite str_app_cons, IH. reflexivity.
Qed.

Lemma length_take (n : nat) (s : string) :
  (Z.of_nat n <= JS.length s)%Z -> JS.length (JS.take n s) = Z.of_nat n.
Proof.
  revert s. induction n as [|n IH]; intros s Hn; [destruct s; reflexivity|].
  destruct s as [|c s].
  - unfold JS.length in Hn. cbn in Hn. lia.
  - cbn [JS.take]. rewrite length_cons in *. rewrite IH; lia.
Qed.

Lemma drop_app_length (q p : string) : JS.drop (Z.to_nat (JS.length q)) (q +:+ p) = p.
Proof.
  induction q as [|c q IH]; [reflexivity|].
  rewrite length_cons, str_app_cons.
  replace (Z.to_nat (JS.length q + 1)) with (S (Z.to_nat (JS.length q)))
    by (pose proof (length_nonneg q); lia).
  exact IH.
Qed.

Lemma eqb_true (s t : string) : String.eqb s t = true <-> s = t.
Proof. apply String.eqb_eq. Qed.

(** [s.endsWith(p)] holds exactly when [s] is some text followed by [p]. *)
Lemma endsWith_spec (s p : string) :
  JS.endsWith s p = true <-> exists q, s = q +:+ p.
Proof.
  unfold JS.endsWith. rewrite andb_true_iff, Z.leb_le, eqb_true. split.
  - intros [_ Hd]. exists (JS.take (Z.to_nat (JS.length s - JS.length p)) s).
    transitivity (JS.take (Z.to_nat (JS.length s - JS.length p)) s
                  +:+ JS.drop (Z.to_nat (JS.length s - JS.length p)) s).
    + symmetry. apply take_drop.
    + rewrite Hd. reflexivity.
  - intros [q ->]. rewrite length_app. pose proof (length_nonneg q). split; [lia|].
    replace (JS.length q + JS.length p - JS.length p)%Z with (JS.length q) by lia.
    apply drop_app_length.
Qed.

(** [s.slice(0, n)] of a string longer than [n] is its first [n] code units. *)
Lemma slice_prefix (s : string) (n : Z) :
  (0 <= n <= JS.length s)%Z -> JS.slice s 0 n = JS.take (Z.to_nat n) s.
Proof.
  intros Hn. unfold JS.slice, JS.clampIndex.
  replace (0 <? 0)%Z with false by reflexivity.
  destruct (n <? 0)%Z eqn:E; [apply Z.ltb_lt in E; lia|].
  rewrite (Z.min_l 0) by lia. rewrite (Z.min_l n) by lia.
  rewrite Z.sub_0_r, Z.max_l by lia. reflexivity.
Qed.

End StringFacts.

(** ** The result cache *)

Section CacheFacts.

Lemma setCache_run (k : string) (v : json) (w : World) :
  setCache k v w =
  (inr tt,
   with_cache (insert k {| value := v; expires := clock w (ticks w) + CACHE_TTL_MS |})
              (ticked w)).
Proof. reflexivity. Qed.

Lemma getCache_absent (k : string) (w : World) :
  cache w !! k = None -> getCache k w = (inr JNull, w).
Proof. intros H. unfold getCache, bind, cache_get. rewrite H. reflexivity. Qed.

Lemma getCache_fresh (k : string) (e : CacheEntry) (w : World) :
  cache w !! k = Some e -> (clock w (ticks w) <= expires e)%Z ->
  getCache k w = (inr (value e), ticked w).
Proof.
  intros H Hle. unfold getCache, bind, cache_get. rewrite H.
  cbn [Date_now]. destruct (Z.gtb_spec (clock w (ticks w)) (expires e)); [lia|reflexivity].
Qed.

Lemma getCache_expired (k : string) (e : CacheEntry) (w : World) :
  cache w !! k = Some e -> (expires e < clock w (ticks w))%Z ->
  getCache k w = (inr JNull, with_cache (delete k) (ticked w)).
Proof.
  intros H Hlt. unfold getCache, bind, cache_get. rewrite H.
  cbn [Date_now]. destruct (Z.gtb_spec (clock w (ticks w)) (expires e)); [reflexivity|lia].
Qed.

(** What a lookup can do to the cache: nothing, or delete the entry
    it found expired. *)
Lemma getCache_cache (k : string) (w : World) :
  cache (snd (getCache k w)) = cache w
  \/ exists e, cache w !! k = Some e /\ (expires e < clock w (ticks w))%Z
               /\ cache (snd (getCache k w)) = delete k (cache w).
Proof.
  destruct (cache w !! k) as [e|] eqn:H.
  - destruct (Z.le_gt_cases (clock w (ticks w)) (expires e)) as [Hle|Hgt].
    + left. rewrite (getCache_fresh k e w H Hle). reflexivity.
    + right. exists e. rewrite (getCache_expired k e w H Hgt). auto.
  - left. rewrite (getCache_absent k w H). reflexivity.
Qed.

Lemma getCache_never_throws (k : string) (w : World) :
  exists v, fst (getCache k w) = inr v.
Proof.
  destruct (cache w !! k) as [e|] eqn:H.
  - destruct (Z.le_gt_cases (clock w (ticks w)) (expires e)) as [Hle|Hgt].
    + rewrite (getCache_fresh k e w H Hle). eauto.
    + rewrite (getCache_expired k e w H Hgt). eauto.
  - rewrite (getCache_absent k w H). eauto.
Qed.

Lemma getCache_calls (k : string) (w : World) :
  calls (snd (getCache k w)) = calls w /\ network (snd (getCache k w)) = network w.
Proof.
  destruct (cache w !! k) as [e|] eqn:H.
  - destruct (Z.le_gt_cases (clock w (ticks w)) (expires e)) as [Hle|Hgt].
    + rewrite (getCache_fresh k e w H Hle). auto.
    + rewrite (getCache_expired k e w H Hgt). auto.
  - rewrite (getCache_absent k w H). auto.
Qed.

(** C4. [setCache(k, v)] stores [v] under [k] with [expires] ten
    minutes after the clock reading it takes. Any later [getCache(k)]
    that finds this entry returns [v] and leaves the cache alone when
    its own clock reading is not past [expires] (an immediate read);
    when its reading is past [expires] it returns [null] and deletes
    the entry, so that no entry for [k] remains. *)
Theorem cache_round_trip_lazy_expiry (w : World) (k : string) (v : json) :
  let expiresAt := (clock w (ticks w) + 10 * 60 * 1000)%Z in
  let w1 := snd (setCache k v w) in
  fst (setCache k v w) = inr tt
  /\ cache w1 !! k = Some {| value := v; expires := expiresAt |}
  /\ forall w2 : World,
       cache w2 !! k = cache w1 !! k ->
       let now := clock w2 (ticks w2) in
       let read := getCache k w2 in
       ((now <= expiresAt)%Z ->
          fst read = inr v /\ cache (snd read) = cache w2)
       /\ ((expiresAt < now)%Z ->
          fst read = inr JNull
          /\ cache (snd read) = delete k (cache w2)
          /\ cache (snd read) !! k = None).
Proof.
  cbv zeta. rewrite setCache_run. cbn [fst snd cache with_cache ticked].
  split; [reflexivity|]. split; [apply lookup_insert_eq|].
  intros w2 Hk. rewrite lookup_insert_eq in Hk. split; intros Ht.
  - rewrite (getCache_fresh k _ w2 Hk Ht). auto.
  - rewrite (getCache_expired k _ w2 Hk Ht). cbn [fst snd cache with_cache ticked].
    repeat split. apply lookup_delete_eq.
Qed.

End CacheFacts.

(** ** The page fetcher *)

Section FetcherFacts.

Lemma fetch_run (req : Request) (w : World) :
  fetch req w = (network w (List.length (calls w)) req, sent req w).
Proof. reflexivity. Qed.

(** The clipping expression, for any bound. *)
Lemma clip_spec (n : Z) (html : string) :
  (0 <= n)%Z ->
  let out := if (JS.length html >? n)%Z then JS.slice html 0 n else html in
  ((JS.length html <= n)%Z /\ out = html)
  \/ ((n < JS.length html)%Z /\ JS.length out = n /\ exists rest, html = out +:+ rest).
Proof.
  intros Hn. cbv zeta. destruct (Z.gtb_spec (JS.length html) n) as [Hgt|Hle].
  - right. split; [lia|]. rewrite slice_prefix by lia. split.
    + rewrite length_take; rewrite Z2Nat.id; lia.
    + exists (JS.drop (Z.to_nat n) html). symmetry. apply take_drop.
  - left. split; [lia|reflexivity].
Qed.

Lemma fetchSiteHTML_run (url : string) (w : World) :
  fetchSiteHTML url w =
  match network w (List.length (calls w)) (siteRequest url) with
  | inl e => (inl e, sent (siteRequest url) w)
  | inr res =>
      if ok res then
        match text res with
        | inl e => (inl e, sent (siteRequest url) w)
        | inr html =>
            (inr (if (JS.length html >? MAX_HTML_LENGTH)%Z
                  then JS.slice html 0 MAX_HTML_LENGTH else html),
             sent (siteRequest url) w)
        end
      else
        (inl (mkError ("Upstream fetch failed: " +:+ JS.showN (status res)
                       +:+ " " +:+ statusText res)),
         sent (siteRequest url) w)
  end.
Proof.
  unfold fetchSiteHTML, bind. rewrite fetch_run.
  destruct (network w (List.length (calls w)) (siteRequest url)) as [e|res]; [reflexivity|].
  destruct (ok res); [|reflexivity]. cbn [negb].
  destruct (text res); reflexivity.
Qed.

(** C7. When the upstream answers with a success status and its body
    is read as [html], [fetchSiteHTML] returns [html] itself if it has
    at most 800,000 code units, and otherwise a text of exactly
    800,000 code units that is a prefix of [html]; it never rejects a
    body for its size. *)
Theorem fetchSiteHTML_clips (url : string) (w : World) (res : Response) (html : string) :
  network w (List.length (calls w)) (siteRequest url) = inr res ->
  ok res = true ->
  text res = inr html ->
  exists out,
    fst (fetchSiteHTML url w) = inr out
    /\ (((JS.length html <= 800000)%Z /\ out = html)
        \/ ((800000 < JS.length html)%Z
            /\ JS.length out = 800000%Z
            /\ exists rest, html = out +:+ rest)).
Proof.
  intros Hnet Hok Htext. rewrite fetchSiteHTML_run, Hnet, Hok, Htext. cbn [fst].
  eexists. split; [reflexivity|].
  apply (clip_spec MAX_HTML_LENGTH html). unfold MAX_HTML_LENGTH. lia.
Qed.

End FetcherFacts.

(** ** The model client *)

Section ClientFacts.

Context {runtime : Runtime}.

Lemma await_run {A} (r : Error + A) (w : World) : await r w = (r, w).
Proof. destruct r; reflexivity. Qed.

Lemma callGroq_run (prompt : json) (w : World) :
  callGroq prompt w =
  (match network w (List.length (calls w)) (groqRequest prompt) with
   | inl e => inl e
   | inr res =>
       if ok res then
         match json_body res with
         | inl e => inl e
         | inr data =>
             match contentOf data with
             | Some c => if JS.truthy c then JSON_parse c else inl noContent
             | None => inl noContent
             end
         end
       else
         inl (mkError ("Groq API error: " +:+ JS.showN (status res) +:+ " "
                       +:+ statusText res +:+ " " +:+ settle_or (text res) ""))
   end,
   sent (groqRequest prompt) w).
Proof.
  unfold callGroq, bind. rewrite fetch_run.
  destruct (network w (List.length (calls w)) (groqRequest prompt)) as [e|res]; [reflexivity|].
  destruct (ok res); [|reflexivity]. cbn [negb].
  destruct (json_body res) as [e|data]; [reflexivity|]. cbn [await ret].
  destruct (contentOf data) as [c|]; [|reflexivity].
  destruct (JS.truthy c); [|reflexivity].
  rewrite await_run. reflexivity.
Qed.

(** C8. Whatever the prompt, the model client sends one request and
    then: fails with the transport's own error when [fetch] rejects;
    fails with an error carrying the status, the reason and the body
    text when the service answers with a non-success status; fails
    when the answer's body cannot be read as JSON or holds no content
    at [choices[0].message.content]; fails with [JSON.parse]'s error,
    raised only after the transport has succeeded, when the content
    is not JSON; and otherwise returns the parsed value, whatever it
    is. *)
Theorem callGroq_outcomes (prompt : json) (w : World) :
  let answer := network w (List.length (calls w)) (groqRequest prompt) in
  let out := fst (callGroq prompt w) in
  calls (snd (callGroq prompt w)) = calls w ++ [groqRequest prompt]
  /\ (forall e, answer = inl e -> out = inl e)
  /\ (forall res, answer = inr res ->
        (ok res = false ->
           out = inl (mkError ("Groq API error: " +:+ JS.showN (status res) +:+ " "
                               +:+ statusText res +:+ " "
                               +:+ match text res with inr t => t | inl _ => "" end)))
        /\ (ok res = true ->
              (forall e, json_body res = inl e -> out = inl e)
              /\ (forall data, json_body res = inr data ->
                    (JS.truthy_opt (contentOf data) = false ->
                       out = inl (mkError "Groq API returned no content"))
                    /\ (forall c, contentOf data = Some c -> JS.truthy c = true ->
                          (forall e, JSON_parse c = inl e -> out = inl e)
                          /\ (forall v, JSON_parse c = inr v -> out = inr v))))).
Proof.
  cbv zeta. rewrite callGroq_run. cbn [fst snd sent calls].
  split; [reflexivity|]. split.
  - intros e ->. reflexivity.
  - intros res ->. split.
    + intros ->. reflexivity.
    + intros ->. split.
      * intros e ->. reflexivity.
      * intros data ->. split.
        -- destruct (contentOf data) as [c|]; cbn [JS.truthy_opt]; [|reflexivity].
           intros ->. reflexivity.
        -- intros c -> ->. split; intros ? ->; reflexivity.
Qed.

(** Without a credential in the environment the client still calls
    the service, with the key written in the source. *)
Lemma GROQ_API_KEY_cases :
  (env_GROQ_API_KEY = None \/ env_GROQ_API_KEY = Some "" ->
   GROQ_API_KEY = "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")
  /\ (forall s, env_GROQ_API_KEY = Some s -> s <> "" -> GROQ_API_KEY = s).
Proof.
  unfold GROQ_API_KEY, JS.str_or_else. split.
  - intros [-> | ->]; reflexivity.
  - intros s -> Hs. destruct (String.eqb_spec s ""); [contradiction|reflexivity].
Qed.

End ClientFacts.

(** ** The handler of [POST /analyze] *)

Section HandlerFacts.

Context {runtime : Runtime}.

Lemma rawUrlOf_world (req : HttpRequest) (w : World) :
  snd (rawUrlOf req w) = w.
Proof.
  unfold rawUrlOf.
  destruct (JS.or_else _ _); reflexivity.
Qed.

Lemma rawUrlOf_run (req : HttpRequest) (w : World) :
  rawUrlOf req w = (fst (rawUrlOf req w), w).
Proof. rewrite <- (rawUrlOf_world req w) at 3. apply surjective_pairing. Qed.

(** The handler, stage by stage. *)
Lemma analyze_run (req : HttpRequest) (w : World) :
  analyze req w =
  match fst (rawUrlOf req w) with
  | inl e => (inr (errorReply 500 (diagnostic e)), w)
  | inr raw =>
      match normalizeUrl raw with
      | None => (inr (errorReply 400 "Invalid URL"), w)
      | Some url =>
          if String.eqb url "" then (inr (errorReply 400 "Invalid URL"), w)
          else if isAllowedUrl url then
            match getCache url w with
            | (inl e, w1) => (inr (errorReply 500 (diagnostic e)), w1)
            | (inr cached, w1) =>
                if JS.truthy cached then (inr (dataReply true cached), w1)
                else
                  match fetchSiteHTML url w1 with
                  | (inl e, w2) => (inr (errorReply 500 (diagnostic e)), w2)
                  | (inr html, w2) =>
                      match callGroq (buildPrompt url html) w2 with
                      | (inl e, w3) => (inr (errorReply 500 (diagnostic e)), w3)
                      | (inr analysis, w3) =>
                          (inr (dataReply false analysis), snd (setCache url analysis w3))
                      end
                  end
            end
          else (inr (errorReply 400 "URL not allowed"), w)
      end
  end.
Proof.
  unfold analyze, try_catch, bind. rewrite (rawUrlOf_run req w).
  cbn [fst]. destruct (fst (rawUrlOf req w)) as [e|raw]; [reflexivity|].
  destruct (normalizeUrl raw) as [url|]; [|reflexivity].
  destruct (String.eqb url ""); [reflexivity|].
  destruct (isAllowedUrl url); [|reflexivity]. cbn [negb].
  destruct (getCache url w) as [[e|cached] w1]; [reflexivity|].
  destruct (JS.truthy cached); [reflexivity|].
  destruct (fetchSiteHTML url w1) as [[e|html] w2]; [reflexivity|].
  destruct (callGroq (buildPrompt url html) w2) as [[e|analysis] w3]; [reflexivity|].
  rewrite setCache_run. reflexivity.
Qed.

End HandlerFacts.

Section HandlerResults.

Context {runtime : Runtime}.

Lemma rawUrlOf_post (s : string) (w : World) :
  rawUrlOf (post s) w = (inr (JS.trim s), w).
Proof.
  unfold rawUrlOf, post. cbn [req_body JS.chain JS.member JS.assoc].
  replace (String.eqb "url" "url") with true by reflexivity.
  cbn [JS.or_else JS.truthy]. destruct (String.eqb_spec s ""); subst; reflexivity.
Qed.

Lemma analyze_never_throws (req : HttpRequest) (w : World) :
  exists reply, fst (analyze req w) = inr reply.
Proof.
  rewrite analyze_run.
  destruct (fst (rawUrlOf req w)) as [e|raw]; [eauto|].
  destruct (normalizeUrl raw) as [url|]; [|eauto].
  destruct (String.eqb url ""); [eauto|].
  destruct (isAllowedUrl url); [|eauto].
  destruct (getCache url w) as [[e|cached] w1]; [eauto|].
  destruct (JS.truthy cached); [eauto|].
  destruct (fetchSiteHTML url w1) as [[e|html] w2]; [eauto|].
  destruct (callGroq (buildPrompt url html) w2) as [[e|analysis] w3]; eauto.
Qed.

(** The taxonomy for a request whose address field is absent, falsy
    or a string, that is, when [.trim] returns. The handler never
    throws. An address that fails normalisation is answered 400
    [Invalid URL]; one whose normalised address fails the allow-check
    is answered 400 [URL not allowed]; both leave the world
    untouched. A validated request that misses the cache and then
    fails while fetching the page or calling the model is answered
    500 with the error's message (or [Analysis failed] when it has
    none); for a page answered with a non-success status that message
    gives the status and reason. *)
Theorem analyze_error_taxonomy (req : HttpRequest) (w : World) :
  (exists reply, fst (analyze req w) = inr reply)
  /\ forall raw, fst (rawUrlOf req w) = inr raw ->
       (normalizeUrl raw = None \/ normalizeUrl raw = Some "" ->
          analyze req w = (inr (errorReply 400 "Invalid URL"), w))
       /\ forall url, normalizeUrl raw = Some url -> url <> "" ->
            (isAllowedUrl url = false ->
               analyze req w = (inr (errorReply 400 "URL not allowed"), w))
            /\ (isAllowedUrl url = true ->
                forall cached w1,
                  getCache url w = (inr cached, w1) -> JS.truthy cached = false ->
                  (forall e w2, fetchSiteHTML url w1 = (inl e, w2) ->
                     analyze req w = (inr (errorReply 500 (diagnostic e)), w2))
                  /\ (forall res,
                        network w1 (List.length (calls w1)) (siteRequest url) = inr res ->
                        ok res = false ->
                        fst (analyze req w) =
                        inr (errorReply 500 ("Upstream fetch failed: "
                                             +:+ JS.showN (status res) +:+ " "
                                             +:+ statusText res)))
                  /\ (forall html w2 e w3,
                        fetchSiteHTML url w1 = (inr html, w2) ->
                        callGroq (buildPrompt url html) w2 = (inl e, w3) ->
                        analyze req w = (inr (errorReply 500 (diagnostic e)), w3))).
Proof.
  split; [apply analyze_never_throws|].
  intros raw Hraw. rewrite analyze_run, Hraw. split.
  - intros [-> | ->]; reflexivity.
  - intros url -> Hurl. destruct (String.eqb_spec url ""); [contradiction|]. split.
    + intros ->. reflexivity.
    + intros -> cached w1 -> ->. split; [|split].
      * intros e w2 ->. reflexivity.
      * intros res Hnet Hok. rewrite fetchSiteHTML_run, Hnet, Hok. reflexivity.
      * intros html w2 e w3 -> ->. reflexivity.
Qed.

(** C5 at a failing input. An address that is no string at all is a
    malformed address, and the handler does not answer it 400
    [Invalid URL]: for the body [{"url": 5}], and for the form body
    [url=a&url=b], [.trim] throws before [normalizeUrl] is reached,
    the [catch] block answers 500 with the [TypeError]'s message, and
    nothing else is done. This holds on every runtime and in every
    world. *)
Theorem non_string_url_is_answered_500 (w : World) :
  analyze numberUrl w = (inr (errorReply 500 (diagnostic trim_TypeError)), w)
  /\ analyze repeatedUrl w = (inr (errorReply 500 (diagnostic trim_TypeError)), w)
  /\ fst (analyze numberUrl w) <> inr (errorReply 400 "Invalid URL")
  /\ fst (analyze repeatedUrl w) <> inr (errorReply 400 "Invalid URL").
Proof.
  assert (Hn : analyze numberUrl w
               = (inr (errorReply 500 (diagnostic trim_TypeError)), w)).
  { rewrite analyze_run. reflexivity. }
  assert (Hr : analyze repeatedUrl w
               = (inr (errorReply 500 (diagnostic trim_TypeError)), w)).
  { rewrite analyze_run. reflexivity. }
  split; [exact Hn|]. split; [exact Hr|].
  rewrite Hn, Hr. cbn [fst]. split; intros H; discriminate H.
Qed.

(** A valid entry whose value is truthy is served from the cache,
    without any call to the network. *)
Lemma analyze_cache_hit (req : HttpRequest) (w : World) (raw url : string) (e : CacheEntry) :
  fst (rawUrlOf req w) = inr raw ->
  normalizeUrl raw = Some url -> url <> "" -> isAllowedUrl url = true ->
  cache w !! url = Some e -> (clock w (ticks w) <= expires e)%Z ->
  JS.truthy (value e) = true ->
  analyze req w = (inr (dataReply true (value e)), ticked w).
Proof.
  intros Hraw Hn Hurl Hok He Ht Hv. rewrite analyze_run, Hraw, Hn.
  destruct (String.eqb_spec url ""); [contradiction|]. rewrite Hok.
  rewrite (getCache_fresh url e w He Ht), Hv. reflexivity.
Qed.

Lemma rawUrlOf_any_world (req : HttpRequest) (w w' : World) :
  fst (rawUrlOf req w) = fst (rawUrlOf req w').
Proof. unfold rawUrlOf. destruct (JS.or_else _ _); reflexivity. Qed.

(** A first request that misses the cache and succeeds with a truthy
    result, then the same request again, its clock reading at most
    ten minutes after the one the first request stored: the second
    reply is the first one's data marked as cached, and the second
    run leaves the network alone. *)
Lemma analyze_twice (req : HttpRequest) (w w' : World) (data : json) :
  analyze req w = (inr (dataReply false data), w') ->
  JS.truthy data = true ->
  (clock w' (ticks w') <= clock w' (Nat.pred (ticks w')) + CACHE_TTL_MS)%Z ->
  analyze req w' = (inr (dataReply true data), ticked w').
Proof.
  intros H1 Hdata Hsoon. rewrite analyze_run in H1. rewrite analyze_run.
  rewrite <- (rawUrlOf_any_world req w w').
  destruct (fst (rawUrlOf req w)) as [e|raw]; [discriminate H1|].
  destruct (normalizeUrl raw) as [url|]; [|discriminate H1].
  destruct (String.eqb url ""); [discriminate H1|].
  destruct (isAllowedUrl url); [|discriminate H1].
  destruct (getCache url w) as [[e|cached] w1]; [discriminate H1|].
  destruct (JS.truthy cached) eqn:Hc.
  { injection H1 as Hd _. discriminate Hd. }
  destruct (fetchSiteHTML url w1) as [[e|html] w2]; [discriminate H1|].
  destruct (callGroq (buildPrompt url html) w2) as [[e|analysis] w3]; [discriminate H1|].
  rewrite setCache_run in H1. cbn [snd] in H1.
  injection H1 as Hd Hw. subst analysis.
  set (entry := {| value := data; expires := (clock w3 (ticks w3) + CACHE_TTL_MS)%Z |}) in *.
  assert (He : cache w' !! url = Some entry).
  { rewrite <- Hw. cbn [cache with_cache ticked]. apply lookup_insert_eq. }
  assert (Ht : (clock w' (ticks w') <= expires entry)%Z).
  { rewrite <- Hw in Hsoon. cbn [clock ticks with_cache ticked Nat.pred] in Hsoon.
    rewrite <- Hw. exact Hsoon. }
  rewrite (getCache_fresh url entry w' He Ht). cbn [value entry].
  rewrite Hdata. reflexivity.
Qed.

Lemma fetchSiteHTML_cache (url : string) (w : World) :
  cache (snd (fetchSiteHTML url w)) = cache w.
Proof.
  rewrite fetchSiteHTML_run.
  destruct (network w _ _) as [?|res]; [reflexivity|].
  destruct (ok res); [|reflexivity]. destruct (text res); reflexivity.
Qed.

Lemma callGroq_cache (prompt : json) (w : World) :
  cache (snd (callGroq prompt w)) = cache w.
Proof. rewrite callGroq_run. reflexivity. Qed.

(** C10. A request that is not answered 200 writes nothing to the
    cache: either the cache is as it was, or the request was a valid
    one for the normalised address [url], the lookup found an entry
    for [url] that had expired, and the cache is as it was but for
    that entry, deleted. In particular a request that passes
    validation and fails during the fetch or the model call leaves
    the cache as the lookup left it; the entry for [url] is written
    once the model call has returned, and only then. *)
Theorem analyze_failure_leaves_cache (req : HttpRequest) (w : World) :
  let reply := fst (analyze req w) in
  let w' := snd (analyze req w) in
  (forall r, reply = inr r -> code r <> 200%N ->
     cache w' = cache w
     \/ exists raw url e,
          fst (rawUrlOf req w) = inr raw /\ normalizeUrl raw = Some url
          /\ cache w !! url = Some e /\ (expires e < clock w (ticks w))%Z
          /\ cache w' = delete url (cache w))
  /\ forall raw url, fst (rawUrlOf req w) = inr raw -> normalizeUrl raw = Some url ->
       url <> "" -> isAllowedUrl url = true ->
       forall cached w1, getCache url w = (inr cached, w1) -> JS.truthy cached = false ->
         (forall e w2, fetchSiteHTML url w1 = (inl e, w2) -> cache w' = cache w1)
         /\ (forall html w2 e w3, fetchSiteHTML url w1 = (inr html, w2) ->
               callGroq (buildPrompt url html) w2 = (inl e, w3) -> cache w' = cache w1)
         /\ (forall html w2 analysis w3, fetchSiteHTML url w1 = (inr html, w2) ->
               callGroq (buildPrompt url html) w2 = (inr analysis, w3) ->
               cache w' =
               <[url := {| value := analysis;
                           expires := (clock w3 (ticks w3) + 10 * 60 * 1000)%Z |}]>
                 (cache w1)).
Proof.
  cbv zeta. rewrite analyze_run. split.
  - intros r. destruct (fst (rawUrlOf req w)) as [e|raw] eqn:Hraw; [auto|].
    destruct (normalizeUrl raw) as [url|] eqn:Hn; [|auto].
    destruct (String.eqb url ""); [auto|].
    destruct (isAllowedUrl url); [|auto].
    pose proof (getCache_cache url w) as Hc.
    destruct (getCache url w) as [[e|cached] w1]; cbn [snd] in Hc.
    + intros _ _. cbn [snd]. lookup_effect Hc raw url.
    + destruct (JS.truthy cached).
      { cbn [fst snd]. intros [= <-] Hcode. exfalso. apply Hcode. reflexivity. }
      rewrite fetchSiteHTML_run.
      destruct (network w1 (List.length (calls w1)) (siteRequest url)) as [e|res];
        [intros _ _; cbn [snd sent cache]; lookup_effect Hc raw url|].
      destruct (ok res); [|intros _ _; cbn [snd sent cache]; lookup_effect Hc raw url].
      destruct (text res) as [e|html];
        [intros _ _; cbn [snd sent cache]; lookup_effect Hc raw url|].
      rewrite callGroq_run. cbn [fst snd].
      match goal with
      | |- context [match ?x with inl _ => _ | inr _ => _ end] => destruct x as [e|analysis]
      end.
      * intros _ _. cbn [snd sent cache]. lookup_effect Hc raw url.
      * cbn [fst snd]. intros [= <-] Hcode. exfalso. apply Hcode. reflexivity.
  - intros raw url -> -> Hurl ->. destruct (String.eqb_spec url ""); [contradiction|].
    intros cached w1 -> ->. split; [|split].
    + intros e w2 Hf. rewrite Hf. cbn [snd].
      rewrite <- (fetchSiteHTML_cache url w1), Hf. reflexivity.
    + intros html w2 e w3 Hf Hg. rewrite Hf, Hg. cbn [snd].
      rewrite <- (fetchSiteHTML_cache url w1), Hf. cbn [snd].
      rewrite <- (callGroq_cache (buildPrompt url html) w2), Hg. reflexivity.
    + intros html w2 analysis w3 Hf Hg. rewrite Hf, Hg, setCache_run.
      cbn [snd with_cache ticked cache].
      rewrite <- (fetchSiteHTML_cache url w1), Hf. cbn [snd].
      rewrite <- (callGroq_cache (buildPrompt url html) w2), Hg. reflexivity.
Qed.

End HandlerResults.

(** ** Addresses *)

Section AddressFacts.

Context {runtime : Runtime}.

Lemma startsWithIgnoreCase_spec (p s : string) :
  startsWithIgnoreCase s p = true
  <-> exists a rest, s = a +:+ rest /\ JS.toLowerCase a = JS.toLowerCase p.
Proof.
  revert s. induction p as [|x p IH]; intros s.
  - split; [|destruct s; reflexivity]. intros _. exists "", s. split; reflexivity.
  - destruct s as [|b s]; cbn [startsWithIgnoreCase].
    + split; [discriminate|]. intros (a & rest & Ha & Hl).
      destruct a; [discriminate Hl | discriminate Ha].
    + rewrite andb_true_iff, IH, Ascii.eqb_eq. split.
      * intros (Hc & a & rest & -> & Hl). exists (String b a), rest.
        split; [reflexivity|]. cbn [JS.toLowerCase]. rewrite Hl, Hc. reflexivity.
      * intros (a & rest & Ha & Hl). destruct a as [|c a]; [discriminate Hl|].
        rewrite str_app_cons in Ha. injection Ha as -> ->.
        cbn [JS.toLowerCase] in Hl. injection Hl as Hc Hl.
        split; [congruence|]. exists a, rest. split; [reflexivity|exact Hl].
Qed.

Lemma hasProto_spec (t : string) : hasProto t = true <-> beginsWithWebScheme t.
Proof.
  unfold hasProto, beginsWithWebScheme.
  rewrite orb_true_iff, !startsWithIgnoreCase_spec. split.
  - intros [(a & rest & H & Hl) | (a & rest & H & Hl)]; exists a, rest; auto.
  - intros (a & rest & H & [Hl | Hl]); [left | right]; exists a, rest; auto.
Qed.

Lemma withProto_web (t : string) : beginsWithWebScheme t -> withProto t = t.
Proof. intros H. apply hasProto_spec in H. unfold withProto. rewrite H. reflexivity. Qed.

Lemma withProto_other (t : string) :
  ~ beginsWithWebScheme t -> withProto t = "https://" +:+ t.
Proof.
  intros H. unfold withProto. destruct (hasProto t) eqn:E; [|reflexivity].
  apply hasProto_spec in E. contradiction.
Qed.

Lemma isAllowedUrl_false (url : string) (u : URLobject) :
  URL url = Some u ->
  isAllowedUrl url = false <-> denylisted (JS.toLowerCase (URL_hostname u)).
Proof.
  intros Hu. unfold isAllowedUrl, denylisted. rewrite Hu. cbv zeta.
  set (h := JS.toLowerCase (URL_hostname u)).
  rewrite <- !endsWith_spec, <- !eqb_true.
  destruct (String.eqb h "localhost"), (JS.endsWith h ".localhost"),
    (JS.endsWith h ".local"), (JS.endsWith h ".internal"),
    (String.eqb h "127.0.0.1"), (String.eqb h "0.0.0.0"); cbn; intuition congruence.
Qed.

End AddressFacts.

(** ** The reference URL parser gives lower-case host names *)

Section ReferenceFacts.

Import Whatwg.

Lemma toLowerCase_app (a b : string) :
  JS.toLowerCase (a +:+ b) = JS.toLowerCase a +:+ JS.toLowerCase b.
Proof.
  induction a as [|c a IH]; [reflexivity|].
  rewrite str_app_cons. cbn [JS.toLowerCase]. rewrite IH. reflexivity.
Qed.

Lemma toLowerCase_uint (d : Decimal.uint) :
  JS.toLowerCase (NilEmpty.string_of_uint d) = NilEmpty.string_of_uint d.
Proof.
  induction d; cbn [NilEmpty.string_of_uint JS.toLowerCase]; try rewrite IHd; reflexivity.
Qed.

Lemma toLowerCase_serializeIPv4 (n : N) :
  JS.toLowerCase (serializeIPv4 n) = serializeIPv4 n.
Proof.
  unfold serializeIPv4, JS.showN. rewrite !toLowerCase_app, !toLowerCase_uint. reflexivity.
Qed.

Lemma lowerChar_asciiLowerChar (c : ascii) :
  (127 <? code c)%N = false -> JS.lowerChar (asciiLowerChar c) = asciiLowerChar c.
Proof.
  destruct c as [[] [] [] [] [] [] [] []]; vm_compute; intros H;
    first [reflexivity | discriminate H].
Qed.

Lemma toLowerCase_asciiLower (s : string) :
  all (fun c => negb (127 <? code c)%N) s = true ->
  JS.toLowerCase (asciiLower s) = asciiLower s.
Proof.
  unfold asciiLower. induction s as [|c s IH]; [reflexivity|].
  cbn [all flatMap]. rewrite andb_true_iff, negb_true_iff. intros [Hc Hs].
  rewrite str_app_cons, str_app_nil_l. cbn [JS.toLowerCase].
  rewrite (lowerChar_asciiLowerChar c Hc), (IH Hs). reflexivity.
Qed.

Lemma all_weaken (p q : ascii -> bool) (s : string) :
  (forall c, p c = true -> q c = true) -> all p s = true -> all q s = true.
Proof.
  intros Hpq. induction s as [|c s IH]; [reflexivity|]. cbn [all].
  rewrite !andb_true_iff. intros [H1 H2]. auto.
Qed.

Lemma parseHost_lower (t h : string) :
  parseHost t = Some h -> JS.toLowerCase h = h.
Proof.
  unfold parseHost.
  destruct (any _ t) eqn:Hany; [discriminate|].
  destruct (hasPunycodeLabel _); [discriminate|].
  destruct (String.eqb _ ""); [discriminate|].
  destruct (any isForbiddenDomainCodePoint _); [discriminate|].
  destruct (endsInNumber _).
  - destruct (parseIPv4 _) as [n|]; [|discriminate]. cbn [option_map].
    intros [= <-]. apply toLowerCase_serializeIPv4.
  - intros [= <-]. apply toLowerCase_asciiLower.
    unfold any in Hany. apply negb_false_iff in Hany.
    revert Hany. apply all_weaken. intros c. rewrite !negb_true_iff, !orb_false_iff.
    tauto.
Qed.

Lemma parse_host (s : string) (u : url) :
  parse s = Some u -> exists t, parseHost t = Some (host u).
Proof.
  unfold parse. intros H.
  repeat match type of H with
         | context [match ?x with _ => _ end] =>
             destruct x eqn:?; try discriminate H
         end.
  all: injection H as <-; cbn [host]; eauto.
Qed.

End ReferenceFacts.

(** ** The claims about addresses and the credential *)

(** C2, as the program has it. The handler trims the address and
    hands it to [normalizeUrl], which prepends [https://] exactly
    when the trimmed text does not begin with [http://] or
    [https://] in any case (another scheme is not recognised as
    one), parses the result with [new URL] and returns the parsed
    address's canonical text; when the parser refuses the text,
    [normalizeUrl] returns [null]. On the reference runtime a bare
    host name gains [https://], upper case is normalised, and the
    empty text and a host with a space are rejected. *)
Theorem normalizeUrl_web_scheme_only :
  (forall (runtime : Runtime) (input : string) (w : World),
     let t := JS.trim input in
     rawUrlOf (post input) w = (inr t, w)
     /\ (beginsWithWebScheme t -> withProto t = t)
     /\ (~ beginsWithWebScheme t -> withProto t = "https://" +:+ t)
     /\ (forall u, URL (withProto t) = Some u -> normalizeUrl t = Some (URL_toString u))
     /\ (URL (withProto t) = None -> normalizeUrl t = None))
  /\ (let normalize input := normalizeUrl (runtime := reference None) (JS.trim input) in
      normalize "  example.com " = Some "https://example.com/"
      /\ normalize "HTTP://Example.COM/a" = Some "http://example.com/a"
      /\ normalize "" = None
      /\ normalize "exa mple.com" = None).
Proof.
  split.
  - intros runtime input w. cbv zeta. split; [apply rawUrlOf_post|].
    split; [apply withProto_web|]. split; [apply withProto_other|].
    unfold normalizeUrl. split.
    + intros u ->. reflexivity.
    + intros ->. reflexivity.
  - cbv zeta. repeat split; vm_compute; reflexivity.
Qed.

(** C3. For an address that parses, [isAllowedUrl] answers [false]
    exactly when the host name, in lower case as the function reads
    it, is [localhost], [127.0.0.1] or [0.0.0.0] or ends in
    [.localhost], [.local] or [.internal], and [true] otherwise. On
    the reference runtime the normalised addresses of [localhost],
    [127.0.0.1], [0.0.0.0], [a.local], [b.internal] and
    [c.localhost] are refused and that of [example.com] is
    allowed; there the parser's host names are in lower case
    already, so the test is on the host name itself. *)
Theorem isAllowedUrl_denylist :
  (forall (runtime : Runtime) (url : string) (u : URLobject),
     URL url = Some u ->
     let hostname := JS.toLowerCase (URL_hostname u) in
     (isAllowedUrl url = false <-> denylisted hostname)
     /\ (isAllowedUrl url = true <-> ~ denylisted hostname))
  /\ (forall (key : option string) (url : string) (u : Whatwg.url),
        Whatwg.parse url = Some u ->
        (isAllowedUrl (runtime := reference key) url = false
         <-> denylisted (Whatwg.host u)))
  /\ (let allowed input :=
        option_map (isAllowedUrl (runtime := reference None))
                   (normalizeUrl (runtime := reference None) input) in
      allowed "localhost" = Some false
      /\ allowed "127.0.0.1" = Some false
      /\ allowed "0.0.0.0" = Some false
      /\ allowed "a.local" = Some false
      /\ allowed "b.internal" = Some false
      /\ allowed "c.localhost" = Some false
      /\ allowed "example.com" = Some true).
Proof.
  split; [|split].
  - intros runtime url u Hu. cbv zeta.
    pose proof (isAllowedUrl_false url u Hu) as H. split; [exact H|].
    rewrite <- H. destruct (isAllowedUrl url); split; congruence.
  - intros key url u Hu.
    destruct (parse_host url u Hu) as [t Ht].
    rewrite <- (parseHost_lower t _ Ht).
    apply (isAllowedUrl_false (runtime := reference key) url u Hu).
  - cbv zeta. repeat split; vm_compute; reflexivity.
Qed.

(** C1, as the program has it. When the environment supplies no
    credential, or an empty one, [GROQ_API_KEY] is the key written in
    the source, and the client calls the service with it; a
    non-empty credential from the environment replaces it. Nothing
    makes the call conditional on the credential. *)
Theorem GROQ_API_KEY_fallback (runtime : Runtime) (prompt : json) (w : World) :
  calls (snd (callGroq prompt w)) = calls w ++ [groqRequest prompt]
  /\ target (groqRequest prompt) = "https://api.groq.com/openai/v1/chat/completions"
  /\ headers (groqRequest prompt) =
     [("Authorization", "Bearer " +:+ GROQ_API_KEY); ("Content-Type", "application/json")]
  /\ (env_GROQ_API_KEY = None \/ env_GROQ_API_KEY = Some "" ->
      GROQ_API_KEY = "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")
  /\ (forall s, env_GROQ_API_KEY = Some s -> s <> "" -> GROQ_API_KEY = s).
Proof.
  rewrite callGroq_run. cbn [snd sent calls].
  split; [reflexivity|]. split; [reflexivity|]. split; [reflexivity|].
  apply GROQ_API_KEY_cases.
Qed.

(** C2 does not hold as stated: [ftp://example.com] has a scheme, as
    the URL parser's own scheme state reads it, and [normalizeUrl]
    prepends [https://] to it all the same, turning the scheme into a
    host name. *)
Lemma normalizeUrl_prepends_to_ftp :
  Whatwg.parseScheme (JS.trim "ftp://example.com") = Some ("ftp", "//example.com")
  /\ withProto (JS.trim "ftp://example.com") = "https://ftp://example.com"
  /\ normalizeUrl (runtime := reference None) (JS.trim "ftp://example.com")
     = Some "https://ftp//example.com".
Proof. repeat split; vm_compute; reflexivity. Qed.

(** C1 does not hold as stated: with no credential in the
    environment, a request for a fresh address is answered 200 after
    the model service has been called with the key written in the
    source. *)
Lemma shipped_credential_is_sent :
  env_GROQ_API_KEY (Runtime := reference None) = None
  /\ fst (analyze (runtime := reference None) (post "example.com") (quietWorld (JStr "{}")))
     = inr (dataReply false (JObj []))
  /\ map (fun r => (target r, header "Authorization" (headers r)))
         (calls (snd (analyze (runtime := reference None) (post "example.com")
                              (quietWorld (JStr "{}")))))
     = [("https://example.com/", None);
        ("https://api.groq.com/openai/v1/chat/completions",
         Some "Bearer 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")].
Proof. repeat split; vm_compute; reflexivity. Qed.

(** C6 at a failing input. The model's content is the JSON text
    [false]. The first request stores [false] with an expiry in the
    future, and a lookup made then finds it; the second request, made
    while that entry is valid, is not served from the cache: it is
    answered [cached: false] after the page and the model have been
    called a second time. *)
Theorem falsy_result_is_fetched_again :
  let first := analyze (runtime := reference None) (post "example.com")
                       (quietWorld (JStr "false")) in
  let second := analyze (runtime := reference None) (post "example.com") (snd first) in
  fst first = inr (dataReply false (JBool false))
  /\ cache (snd first) !! "https://example.com/"
     = Some {| value := JBool false; expires := 601000 |}
  /\ clock (snd first) (ticks (snd first)) = 1000%Z
  /\ fst (getCache "https://example.com/" (snd first)) = inr (JBool false)
  /\ fst second = inr (dataReply false (JBool false))
  /\ map target (calls (snd second))
     = ["https://example.com/"; "https://api.groq.com/openai/v1/chat/completions";
        "https://example.com/"; "https://api.groq.com/openai/v1/chat/completions"].
Proof. cbv zeta. repeat split; vm_compute; reflexivity. Qed.

(** The same two requests with a model that answers an object: the
    second is served from the cache and the network is not called
    again. *)
Lemma truthy_result_is_served_from_cache :
  let first := analyze (runtime := reference None) (post "example.com")
                       (quietWorld (JStr "{}")) in
  let second := analyze (runtime := reference None) (post "example.com") (snd first) in
  fst first = inr (dataReply false (JObj []))
  /\ fst second = inr (dataReply true (JObj []))
  /\ map target (calls (snd second))
     = ["https://example.com/"; "https://api.groq.com/openai/v1/chat/completions"].
Proof. cbv zeta. repeat split; vm_compute; reflexivity. Qed.

(** ** The theorems at concrete inputs *)

Lemma cache_round_trip_witness :
  fst (getCache "k" (snd (setCache "k" (JObj []) offlineWorld))) = inr (JObj [])
  /\ fst (getCache "k"
            (worldOf (cache (snd (setCache "k" (JObj []) offlineWorld)))
                     (fun _ => 601001%Z) downNetwork))
     = inr JNull.
Proof.
  destruct (cache_round_trip_lazy_expiry offlineWorld "k" (JObj [])) as (_ & _ & H).
  split.
  - apply (H (snd (setCache "k" (JObj []) offlineWorld)) eq_refl).
    vm_compute. discriminate.
  - apply (H (worldOf (cache (snd (setCache "k" (JObj []) offlineWorld)))
                      (fun _ => 601001%Z) downNetwork) eq_refl).
    vm_compute. reflexivity.
Defined.

Lemma fetchSiteHTML_clips_witness :
  exists out,
    fst (fetchSiteHTML "https://example.com/" (quietWorld JNull)) = inr out
    /\ (((JS.length "<html><head><title>Example</title></head></html>" <= 800000)%Z
         /\ out = "<html><head><title>Example</title></head></html>")
        \/ ((800000 < JS.length "<html><head><title>Example</title></head></html>")%Z
            /\ JS.length out = 800000%Z
            /\ exists rest,
                 "<html><head><title>Example</title></head></html>" = out +:+ rest)).
Proof.
  apply (fetchSiteHTML_clips "https://example.com/" (quietWorld JNull) mockSite
           "<html><head><title>Example</title></head></html>");
    reflexivity.
Defined.

Lemma callGroq_outcomes_witness :
  fst (callGroq (runtime := reference None) (JArr []) (quietWorld (JStr "{}")))
  = inr (JObj [])
  /\ fst (callGroq (runtime := reference None) (JArr []) (quietWorld (JStr "<html>")))
     = inl Json.SyntaxError
  /\ fst (callGroq (runtime := reference None) (JArr []) (quietWorld (JStr "")))
     = inl (mkError "Groq API returned no content").
Proof.
  split; [|split].
  - destruct (callGroq_outcomes (runtime := reference None) (JArr []) (quietWorld (JStr "{}")))
      as (_ & _ & H).
    destruct (H (mockModel (JStr "{}")) eq_refl) as [_ H1].
    destruct (H1 eq_refl) as [_ H2].
    destruct (H2 _ eq_refl) as [_ H3].
    apply (H3 (JStr "{}") eq_refl eq_refl). reflexivity.
  - destruct (callGroq_outcomes (runtime := reference None) (JArr [])
                (quietWorld (JStr "<html>"))) as (_ & _ & H).
    destruct (H (mockModel (JStr "<html>")) eq_refl) as [_ H1].
    destruct (H1 eq_refl) as [_ H2].
    destruct (H2 _ eq_refl) as [_ H3].
    apply (H3 (JStr "<html>") eq_refl eq_refl). reflexivity.
  - destruct (callGroq_outcomes (runtime := reference None) (JArr []) (quietWorld (JStr "")))
      as (_ & _ & H).
    destruct (H (mockModel (JStr "")) eq_refl) as [_ H1].
    destruct (H1 eq_refl) as [_ H2].
    destruct (H2 _ eq_refl) as [H3 _].
    apply H3. reflexivity.
Defined.

Lemma analyze_error_taxonomy_witness :
  analyze (runtime := reference None) (post "") offlineWorld
  = (inr (errorReply 400 "Invalid URL"), offlineWorld)
  /\ analyze (runtime := reference None) (post "localhost") offlineWorld
     = (inr (errorReply 400 "URL not allowed"), offlineWorld)
  /\ fst (analyze (runtime := reference None) (post "example.com") offlineWorld)
     = inr (errorReply 500 "connect ECONNREFUSED")
  /\ fst (analyze (runtime := reference None) (post "example.com")
                  (quietWorld (JStr "<html>")))
     = inr (errorReply 500 "Unexpected token in JSON").
Proof.
  split; [|split; [|split]].
  - destruct (analyze_error_taxonomy (runtime := reference None) (post "") offlineWorld)
      as [_ H].
    destruct (H "" eq_refl) as [H1 _]. apply H1. left. reflexivity.
  - destruct (analyze_error_taxonomy (runtime := reference None) (post "localhost")
                offlineWorld) as [_ H].
    destruct (H "localhost" eq_refl) as [_ H1].
    destruct (H1 "https://localhost/" eq_refl) as [H2 _]; [discriminate|].
    apply H2. reflexivity.
  - destruct (analyze_error_taxonomy (runtime := reference None) (post "example.com")
                offlineWorld) as [_ H].
    destruct (H "example.com" eq_refl) as [_ H1].
    destruct (H1 "https://example.com/" eq_refl) as [_ H2]; [discriminate|].
    destruct (H2 eq_refl JNull offlineWorld eq_refl eq_refl) as [H3 _].
    rewrite (H3 (mkError "connect ECONNREFUSED")
                (sent (siteRequest "https://example.com/") offlineWorld) eq_refl).
    reflexivity.
  - destruct (analyze_error_taxonomy (runtime := reference None) (post "example.com")
                (quietWorld (JStr "<html>"))) as [_ H].
    destruct (H "example.com" eq_refl) as [_ H1].
    destruct (H1 "https://example.com/" eq_refl) as [_ H2]; [discriminate|].
    destruct (H2 eq_refl JNull (quietWorld (JStr "<html>")) eq_refl eq_refl) as (_ & _ & H3).
    rewrite (H3 _ _ Json.SyntaxError _ eq_refl eq_refl).
    reflexivity.
Defined.

Lemma analyze_failure_leaves_cache_witness :
  cache (snd (analyze (runtime := reference None) (post "example.com") offlineWorld))
  = cache offlineWorld.
Proof.
  destruct (analyze_failure_leaves_cache (runtime := reference None) (post "example.com")
              offlineWorld) as [_ H].
  assert (Hurl : "https://example.com/" <> "") by discriminate.
  destruct (H "example.com" "https://example.com/" eq_refl eq_refl Hurl eq_refl
              JNull offlineWorld eq_refl eq_refl) as [H1 _].
  exact (H1 (mkError "connect ECONNREFUSED")
            (sent (siteRequest "https://example.com/") offlineWorld) eq_refl).
Defined.

Lemma normalizeUrl_web_scheme_only_witness :
  withProto (JS.trim " example.com ") = "https://" +:+ JS.trim " example.com "
  /\ withProto (JS.trim "http://example.com") = JS.trim "http://example.com"
  /\ normalizeUrl (runtime := reference None) (JS.trim " example.com ")
     = Some "https://example.com/".
Proof.
  destruct normalizeUrl_web_scheme_only as [H _].
  destruct (H (reference None) " example.com " offlineWorld) as (_ & _ & H1 & H2 & _).
  destruct (H (reference None) "http://example.com" offlineWorld) as (_ & H3 & _).
  split; [|split].
  - apply H1. intros Hw. apply hasProto_spec in Hw. discriminate Hw.
  - apply H3. apply hasProto_spec. reflexivity.
  - exact (H2 {| Whatwg.scheme := "https"; Whatwg.username := ""; Whatwg.password := "";
                 Whatwg.host := "example.com"; Whatwg.port := None;
                 Whatwg.path := [""]; Whatwg.query := None;
                 Whatwg.fragment := None |} eq_refl).
Defined.

Lemma isAllowedUrl_denylist_witness :
  (isAllowedUrl (runtime := reference None) "https://a.local/" = false
   <-> denylisted "a.local")
  /\ (isAllowedUrl (runtime := reference None) "https://example.com/" = true
      <-> ~ denylisted "example.com").
Proof.
  destruct isAllowedUrl_denylist as [H _]. split.
  - exact (proj1 (H (reference None) "https://a.local/"
                    {| Whatwg.scheme := "https"; Whatwg.username := "";
                       Whatwg.password := ""; Whatwg.host := "a.local";
                       Whatwg.port := None; Whatwg.path := [""];
                       Whatwg.query := None; Whatwg.fragment := None |} eq_refl)).
  - exact (proj2 (H (reference None) "https://example.com/"
                    {| Whatwg.scheme := "https"; Whatwg.username := "";
                       Whatwg.password := ""; Whatwg.host := "example.com";
                       Whatwg.port := None; Whatwg.path := [""];
                       Whatwg.query := None; Whatwg.fragment := None |} eq_refl)).
Defined.

Lemma GROQ_API_KEY_fallback_witness :
  GROQ_API_KEY (runtime := reference None)
  = "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"
  /\ GROQ_API_KEY (runtime := reference (Some "secret")) = "secret".
Proof.
  split.
  - destruct (GROQ_API_KEY_fallback (reference None) (JArr []) offlineWorld)
      as (_ & _ & _ & H & _).
    apply H. left. reflexivity.
  - destruct (GROQ_API_KEY_fallback (reference (Some "secret")) (JArr []) offlineWorld)
      as (_ & _ & _ & _ & H).
    apply (H "secret" eq_refl). discriminate.
Defined.

(** * Further properties of the pipeline *)

(** ** Text *)

Section MoreStringFacts.

Lemma str_app_assoc (a b c : string) : (a +:+ b) +:+ c = a +:+ (b +:+ c).
Proof.
  induction a as [|x a IH]; [reflexivity|].
  rewrite !str_app_cons, IH. reflexivity.
Qed.

Lemma str_app_inv_head (a x y : string) : a +:+ x = a +:+ y -> x = y.
Proof.
  induction a as [|c a IH]; [auto|].
  rewrite !str_app_cons. intros [= H]. auto.
Qed.

Lemma str_app_inv_tail (b x y : string) : x +:+ b = y +:+ b -> x = y.
Proof.
  revert y. induction x as [|c x IH]; intros [|d y] H.
  - reflexivity.
  - apply (f_equal JS.length) in H. rewrite str_app_nil_l, length_app, length_cons in H.
    pose proof (length_nonneg y). lia.
  - apply (f_equal JS.length) in H. rewrite str_app_nil_l, length_app, length_cons in H.
    pose proof (length_nonneg x). lia.
  - rewrite !str_app_cons in H. injection H as -> H. f_equal. auto.
Qed.

Lemma lastChar_app (q p : string) : p <> "" -> lastChar (q +:+ p) = lastChar p.
Proof.
  intros Hp. induction q as [|c q IH]; [reflexivity|].
  rewrite str_app_cons. cbn [lastChar]. rewrite IH.
  destruct (q +:+ p) eqn:E; [|reflexivity].
  destruct q; [rewrite str_app_nil_l in E; contradiction | discriminate E].
Qed.

End MoreStringFacts.

(** ** More on the cache *)

Section MoreCacheFacts.

Lemma getCache_other (k k' : string) (w : World) :
  k' <> k -> cache (snd (getCache k w)) !! k' = cache w !! k'.
Proof.
  intros Hk. destruct (getCache_cache k w) as [-> | (e & _ & _ & ->)]; [reflexivity|].
  apply lookup_delete_ne. congruence.
Qed.

(** X1. Two writes of the same key leave one entry, the second: its
    value and an expiry ten minutes after the second write's clock
    reading. The first write leaves no trace, and no other key is
    touched. *)
Theorem setCache_last_write_wins (w : World) (k : string) (v1 v2 : json) :
  let w2 := snd (setCache k v2 (snd (setCache k v1 w))) in
  let second := {| value := v2;
                   expires := (clock w (S (ticks w)) + 10 * 60 * 1000)%Z |} in
  cache w2 = <[k := second]> (cache w)
  /\ cache w2 !! k = Some second
  /\ (forall k', k' <> k -> cache w2 !! k' = cache w !! k')
  /\ fst (getCache k (worldOf (cache w2) (fun _ => clock w (S (ticks w))) (network w)))
     = inr v2.
Proof.
  cbv zeta. rewrite !setCache_run. cbn [snd cache clock ticks with_cache ticked].
  rewrite insert_insert_eq. split; [reflexivity|].
  split; [apply lookup_insert_eq|]. split.
  - intros k' Hk. apply lookup_insert_ne. congruence.
  - rewrite (getCache_fresh k
               {| value := v2; expires := (clock w (S (ticks w)) + CACHE_TTL_MS)%Z |}).
    + reflexivity.
    + cbn [cache worldOf]. apply lookup_insert_eq.
    + cbn [clock ticks worldOf expires]. unfold CACHE_TTL_MS. lia.
Qed.

(** X2. A lookup never throws, never calls the network and never
    changes the entry of another key. When the key has no entry it
    answers [null] without reading the clock and leaves the world as
    it was; otherwise it reads the clock once. *)
Theorem getCache_frame (w : World) (k : string) :
  let out := getCache k w in
  (exists v, fst out = inr v)
  /\ calls (snd out) = calls w
  /\ (forall k', k' <> k -> cache (snd out) !! k' = cache w !! k')
  /\ (cache w !! k = None -> out = (inr JNull, w))
  /\ (forall e, cache w !! k = Some e -> ticks (snd out) = S (ticks w)).
Proof.
  cbv zeta. split; [apply getCache_never_throws|].
  split; [apply getCache_calls|].
  split; [intros k'; apply getCache_other|].
  split; [apply getCache_absent|].
  intros e He. destruct (Z.le_gt_cases (clock w (ticks w)) (expires e)) as [Hle|Hgt].
  - rewrite (getCache_fresh k e w He Hle). reflexivity.
  - rewrite (getCache_expired k e w He Hgt). reflexivity.
Qed.

End MoreCacheFacts.

(** ** More on the fetcher and the prompt *)

Section MoreFetcherFacts.

(** X3. [fetchSiteHTML] sends exactly one request, to the address it
    was given, and touches neither the cache nor the clock. It throws
    the network's own error when [fetch] rejects; for a status
    outside 200-299 it throws [Upstream fetch failed: <status>
    <reason>] without looking at the body; and it throws the body's
    error when a successful response cannot be read as text. *)
Theorem fetchSiteHTML_failures (url : string) (w : World) :
  let answer := network w (List.length (calls w)) (siteRequest url) in
  let out := fetchSiteHTML url w in
  calls (snd out) = calls w ++ [siteRequest url]
  /\ target (siteRequest url) = url
  /\ cache (snd out) = cache w
  /\ ticks (snd out) = ticks w
  /\ (forall e, answer = inl e -> fst out = inl e)
  /\ (forall res, answer = inr res ->
        ((status res < 200)%N \/ (299 < status res)%N) ->
        fst out = inl (mkError ("Upstream fetch failed: " +:+ JS.showN (status res)
                                +:+ " " +:+ statusText res)))
  /\ (forall res e, answer = inr res ->
        (200 <= status res <= 299)%N -> text res = inl e -> fst out = inl e).
Proof.
  cbv zeta. rewrite fetchSiteHTML_run.
  destruct (network w (List.length (calls w)) (siteRequest url)) as [e|res].
  - repeat split; try reflexivity; try discriminate. intros e0 [= ->]. reflexivity.
  - assert (Hw : forall r : Error + string,
               snd (if ok res
                    then match text res with
                         | inl e => (inl e, sent (siteRequest url) w)
                         | inr html =>
                             (inr (if (JS.length html >? MAX_HTML_LENGTH)%Z
                                   then JS.slice html 0 MAX_HTML_LENGTH else html),
                              sent (siteRequest url) w)
                         end
                    else (r, sent (siteRequest url) w))
               = sent (siteRequest url) w).
    { intros r. destruct (ok res); [destruct (text res)|]; reflexivity. }
    rewrite Hw. cbn [sent calls cache ticks].
    repeat split; try reflexivity; try discriminate.
    + intros res0 [= <-] Hs. unfold ok.
      destruct Hs as [Hs|Hs].
      * apply N.leb_gt in Hs. rewrite Hs. reflexivity.
      * apply N.leb_gt in Hs. rewrite Hs, andb_false_r. reflexivity.
    + intros res0 e [= <-] [H1 H2] Ht. unfold ok.
      apply N.leb_le in H1, H2. rewrite H1, H2, Ht. reflexivity.
Qed.

(** The text of the user message, for any address and page. *)
Lemma buildPrompt_user (url html : string) :
  exists system,
    buildPrompt url html =
    JArr [system;
          JObj [("role", JStr "user");
                ("content",
                 JStr (promptIntro +:+ url +:+ promptSchema +:+ html +:+ promptOutro))]].
Proof. eexists. reflexivity. Qed.

Lemma prompt_length (url html : string) :
  JS.length (promptIntro +:+ url +:+ promptSchema +:+ html +:+ promptOutro)
  = (2041 + JS.length url + JS.length html)%Z.
Proof.
  rewrite !length_app.
  replace (JS.length promptIntro) with 63%Z by (vm_compute; reflexivity).
  replace (JS.length promptSchema) with 1969%Z by (vm_compute; reflexivity).
  replace (JS.length promptOutro) with 9%Z by (vm_compute; reflexivity).
  lia.
Qed.

(** X4. Whatever page [fetchSiteHTML] returns, the prompt built from
    it has two messages, and the user message is 2041 code units of
    fixed text plus the address plus the page: at most 802,041 code
    units besides the address. *)
Theorem prompt_size_bound (url : string) (w : World) (html : string) :
  fst (fetchSiteHTML url w) = inr html ->
  exists system user,
    buildPrompt url html =
    JArr [JObj [("role", JStr "system"); ("content", JStr system)];
          JObj [("role", JStr "user"); ("content", JStr user)]]
    /\ JS.length user = (2041 + JS.length url + JS.length html)%Z
    /\ (JS.length user <= 802041 + JS.length url)%Z.
Proof.
  intros Hf. eexists _, _. split; [reflexivity|].
  rewrite prompt_length. split; [reflexivity|].
  rewrite fetchSiteHTML_run in Hf.
  destruct (network w _ _) as [?|res]; [discriminate Hf|].
  destruct (ok res); [|discriminate Hf].
  destruct (text res) as [?|body]; [discriminate Hf|].
  cbn [fst] in Hf. injection Hf as <-.
  assert (H0 : (0 <= MAX_HTML_LENGTH)%Z) by (unfold MAX_HTML_LENGTH; lia).
  destruct (clip_spec MAX_HTML_LENGTH body H0) as [[Hle ->] | (_ & -> & _)];
    unfold MAX_HTML_LENGTH in *; lia.
Qed.

(** X5. The prompt loses nothing of either input taken alone: for a
    given address two pages give the same prompt only if they are the
    same page, and for a given page two addresses give the same
    prompt only if they are the same address. *)
Theorem buildPrompt_injective (url url' html html' : string) :
  (buildPrompt url html = buildPrompt url html' -> html = html')
  /\ (buildPrompt url html = buildPrompt url' html -> url = url').
Proof.
  unfold buildPrompt. split; intros [= H].
  - apply str_app_inv_head, str_app_inv_head, str_app_inv_head in H.
    apply str_app_inv_tail in H. exact H.
  - apply str_app_inv_head in H.
    apply (str_app_inv_tail (promptSchema +:+ html +:+ promptOutro)) in H. exact H.
Qed.

(** X6. Nothing in the prompt is escaped: a page that contains the
    prompt's own schema text is indistinguishable from a longer
    address with a shorter page. The address [a] with the page
    [b ++ schema ++ h] gives the same prompt as the address
    [a ++ schema ++ b] with the page [h]. *)
Theorem buildPrompt_ambiguous (a b h : string) :
  buildPrompt a (b +:+ promptSchema +:+ h)
  = buildPrompt (a +:+ promptSchema +:+ b) h.
Proof.
  unfold buildPrompt. do 6 f_equal.
  rewrite !str_app_assoc. reflexivity.
Qed.

End MoreFetcherFacts.

(** ** More on addresses *)

Section MoreAddressFacts.

Context {runtime : Runtime}.

(** X7. Whatever the input, the text [normalizeUrl] hands to the URL
    parser begins with [http://] or [https://]: an input with any
    other scheme, or none, is parsed as the host and path of an
    [https] address. Adding the scheme twice changes nothing. *)
Theorem withProto_web_only (input : string) :
  beginsWithWebScheme (withProto input)
  /\ hasProto (withProto input) = true
  /\ withProto (withProto input) = withProto input
  /\ normalizeUrl (withProto input) = normalizeUrl input.
Proof.
  assert (H : hasProto (withProto input) = true).
  { unfold withProto. destruct (hasProto input) eqn:E; [exact E|].
    apply hasProto_spec. exists "https://", input. split; [reflexivity|].
    right. reflexivity. }
  split; [apply hasProto_spec; exact H|]. split; [exact H|].
  assert (Hw : withProto (withProto input) = withProto input).
  { unfold withProto at 1. rewrite H. reflexivity. }
  split; [exact Hw|]. unfold normalizeUrl. rewrite Hw. reflexivity.
Qed.

Lemma denylisted_lastChar (h : string) :
  denylisted h ->
  h = "127.0.0.1" \/ h = "0.0.0.0"
  \/ lastChar h = Some "t"%char \/ lastChar h = Some "l"%char.
Proof.
  intros [-> | [-> | [-> | [[p ->] | [[p ->] | [p ->]]]]]].
  - right. right. left. reflexivity.
  - left. reflexivity.
  - right. left. reflexivity.
  - right. right. left. rewrite lastChar_app; [reflexivity|discriminate].
  - right. right. right. rewrite lastChar_app; [reflexivity|discriminate].
  - right. right. right. rewrite lastChar_app; [reflexivity|discriminate].
Qed.

(** X8. The denylist is decided by how the host name ends. A host
    name whose last character is none of [t], [l], [0] and [1] is
    allowed, whatever it is: a name with a trailing dot, a bracketed
    IPv6 literal, an IPv4 address ending in 2 to 9. A host name
    ending in [0] or [1] is refused only when it is exactly
    [127.0.0.1] or [0.0.0.0], so every other IPv4 address, private or
    loopback, is allowed. *)
Theorem isAllowedUrl_by_last_character (url : string) (u : URLobject) (c : ascii) :
  URL url = Some u ->
  lastChar (JS.toLowerCase (URL_hostname u)) = Some c ->
  (c <> "t"%char -> c <> "l"%char -> c <> "0"%char -> c <> "1"%char ->
   isAllowedUrl url = true)
  /\ (c = "0"%char \/ c = "1"%char ->
      (isAllowedUrl url = false
       <-> JS.toLowerCase (URL_hostname u) = "127.0.0.1"
           \/ JS.toLowerCase (URL_hostname u) = "0.0.0.0")).
Proof.
  intros Hu Hc. pose proof (isAllowedUrl_false url u Hu) as Hd.
  set (h := JS.toLowerCase (URL_hostname u)) in *. split.
  - intros Ht Hl H0 H1. destruct (isAllowedUrl url); [reflexivity|].
    destruct (denylisted_lastChar h (proj1 Hd eq_refl)) as [E | [E | [E | E]]];
      rewrite E in Hc; injection Hc as <-; congruence.
  - intros H01. rewrite Hd. split.
    + intros H. destruct (denylisted_lastChar h H) as [E | [E | [E | E]]]; auto;
        rewrite E in Hc; injection Hc as <-; destruct H01; discriminate.
    + unfold denylisted. intros [-> | ->]; auto.
Qed.

End MoreAddressFacts.

(** ** More on the handler *)

Section MoreHandlerFacts.

Context {runtime : Runtime}.

Lemma analyze_ext (req req' : HttpRequest) (w : World) :
  fst (rawUrlOf req w) = fst (rawUrlOf req' w) -> analyze req w = analyze req' w.
Proof. intros H. rewrite !analyze_run, H. reflexivity. Qed.

Lemma diagnostic_nonempty (e : Error) : diagnostic e <> "".
Proof.
  unfold diagnostic. destruct (String.eqb_spec (message e) ""); [discriminate|assumption].
Qed.

Lemma getCache_truthy_inv (k : string) (w w1 : World) (v : json) :
  getCache k w = (inr v, w1) -> JS.truthy v = true ->
  exists e, cache w !! k = Some e /\ value e = v
            /\ (clock w (ticks w) <= expires e)%Z /\ w1 = ticked w.
Proof.
  intros Hg Hv. destruct (cache w !! k) as [e|] eqn:He.
  - destruct (Z.le_gt_cases (clock w (ticks w)) (expires e)) as [Hle|Hgt].
    + rewrite (getCache_fresh k e w He Hle) in Hg. injection Hg as <- <-. eauto.
    + rewrite (getCache_expired k e w He Hgt) in Hg. injection Hg as <- _.
      discriminate Hv.
  - rewrite (getCache_absent k w He) in Hg. injection Hg as <- _. discriminate Hv.
Qed.

(** X9. The handler reads the address field leniently and the rest
    strictly. A body that is missing, has no [url], or has a falsy
    one ([null], [false], [0], the empty string) is handled exactly
    like the empty address. A string is handled like a body holding
    just that string. Any other value (a number, [true], an array, an
    object) makes [.trim] throw: the reply is 500 with the
    [TypeError]'s message, not 400, and the world is untouched. *)
Theorem analyze_url_field (req : HttpRequest) (w : World) :
  let field := JS.chain (req_body req) (fun b => JS.member b "url") in
  (JS.truthy_opt field = false -> analyze req w = analyze (post "") w)
  /\ (forall s, field = Some (JStr s) -> analyze req w = analyze (post s) w)
  /\ (forall v, field = Some v -> JS.truthy v = true -> (forall s, v <> JStr s) ->
        analyze req w = (inr (errorReply 500 (diagnostic trim_TypeError)), w)).
Proof.
  cbv zeta. split; [|split].
  - intros Hf. apply analyze_ext. rewrite rawUrlOf_post. unfold rawUrlOf.
    destruct (JS.chain _ _) as [v|]; [|reflexivity].
    cbn [JS.truthy_opt] in Hf. cbn [JS.or_else]. rewrite Hf. reflexivity.
  - intros s Hf. apply analyze_ext. rewrite rawUrlOf_post. unfold rawUrlOf.
    rewrite Hf. cbn [JS.or_else JS.truthy].
    destruct (String.eqb_spec s ""); subst; reflexivity.
  - intros v Hf Hv Hs. rewrite analyze_run. unfold rawUrlOf. rewrite Hf.
    cbn [JS.or_else]. rewrite Hv.
    destruct v; try reflexivity. exfalso. eapply Hs. reflexivity.
Qed.


(** X11. A request touches the cache entry of its own normalised
    address and no other: the entry of any other key is after the
    request what it was before. *)
Theorem analyze_frame (req : HttpRequest) (w : World) (k : string) :
  (forall raw, fst (rawUrlOf req w) = inr raw -> normalizeUrl raw <> Some k) ->
  cache (snd (analyze req w)) !! k = cache w !! k.
Proof.
  intros Hk. rewrite analyze_run.
  destruct (fst (rawUrlOf req w)) as [e|raw]; [reflexivity|].
  specialize (Hk raw eq_refl).
  destruct (normalizeUrl raw) as [url|]; [|reflexivity].
  assert (Hne : k <> url) by congruence.
  destruct (String.eqb url ""); [reflexivity|].
  destruct (isAllowedUrl url); [|reflexivity].
  pose proof (getCache_other url k w Hne) as Hg.
  destruct (getCache url w) as [[e|cached] w1]; cbn [snd] in Hg; [exact Hg|].
  destruct (JS.truthy cached); [exact Hg|].
  pose proof (fetchSiteHTML_cache url w1) as Hf.
  destruct (fetchSiteHTML url w1) as [[e|html] w2]; cbn [snd] in Hf;
    [cbn [snd]; congruence|].
  pose proof (callGroq_cache (buildPrompt url html) w2) as Hm.
  destruct (callGroq (buildPrompt url html) w2) as [[e|analysis] w3]; cbn [snd] in Hm;
    [cbn [snd]; congruence|].
  rewrite setCache_run. cbn [snd cache with_cache ticked].
  rewrite lookup_insert_ne by congruence. congruence.
Qed.

(** X12. Every reply has one of five forms: 400 [Invalid URL], 400
    [URL not allowed], 500 with an error text that is never empty,
    200 with fresh data, or 200 with cached data that is truthy. *)
Theorem analyze_reply_shape (req : HttpRequest) (w : World) :
  exists r,
    fst (analyze req w) = inr r
    /\ (r = errorReply 400 "Invalid URL"
        \/ r = errorReply 400 "URL not allowed"
        \/ (exists text, text <> "" /\ r = errorReply 500 text)
        \/ (exists data, r = dataReply false data)
        \/ (exists data, JS.truthy data = true /\ r = dataReply true data)).
Proof.
  rewrite analyze_run.
  assert (H500 : forall (e : Error) (w0 : World),
             exists r, fst (inr (errorReply 500 (diagnostic e)) : Error + Reply, w0) = inr r
               /\ (r = errorReply 400 "Invalid URL"
                   \/ r = errorReply 400 "URL not allowed"
                   \/ (exists text, text <> "" /\ r = errorReply 500 text)
                   \/ (exists data, r = dataReply false data)
                   \/ (exists data, JS.truthy data = true /\ r = dataReply true data))).
  { intros e w0. eexists. split; [reflexivity|]. right. right. left.
    exists (diagnostic e). split; [apply diagnostic_nonempty|reflexivity]. }
  destruct (fst (rawUrlOf req w)) as [e|raw]; [apply H500|].
  destruct (normalizeUrl raw) as [url|]; [|eauto].
  destruct (String.eqb url ""); [eauto|].
  destruct (isAllowedUrl url); [|eauto 6].
  destruct (getCache url w) as [[e|cached] w1]; [apply H500|].
  destruct (JS.truthy cached) eqn:Hc; [eauto 10|].
  destruct (fetchSiteHTML url w1) as [[e|html] w2]; [apply H500|].
  destruct (callGroq (buildPrompt url html) w2) as [[e|analysis] w3]; [apply H500|].
  eauto 10.
Qed.

(** X13. A reply marked as cached is never stale and never invented:
    the cache held an entry for the request's normalised, allowed
    address, the clock reading taken was not past its expiry, the
    data is that entry's value, and the request did nothing but read
    the clock once. *)
Theorem cached_reply_is_fresh (req : HttpRequest) (w w' : World) (data : json) :
  analyze req w = (inr (dataReply true data), w') ->
  exists raw url e,
    fst (rawUrlOf req w) = inr raw /\ normalizeUrl raw = Some url
    /\ isAllowedUrl url = true
    /\ cache w !! url = Some e /\ value e = data
    /\ (clock w (ticks w) <= expires e)%Z
    /\ w' = ticked w.
Proof.
  rewrite analyze_run.
  destruct (fst (rawUrlOf req w)) as [e|raw]; [discriminate|].
  destruct (normalizeUrl raw) as [url|] eqn:Hn; [|discriminate].
  destruct (String.eqb url ""); [discriminate|].
  destruct (isAllowedUrl url) eqn:Hok; [|discriminate].
  destruct (getCache url w) as [[e|cached] w1] eqn:Hg; [discriminate|].
  destruct (JS.truthy cached) eqn:Hc.
  - intros [= <- <-].
    destruct (getCache_truthy_inv url w w1 cached Hg Hc) as (e & He & Hv & Ht & Hw).
    exists raw, url, e. repeat split; assumption || reflexivity.
  - destruct (fetchSiteHTML url w1) as [[e|html] w2]; [discriminate|].
    destruct (callGroq (buildPrompt url html) w2) as [[e|analysis] w3]; discriminate.
Qed.

(** X14. The cache is keyed by the normalised address, not by what
    was typed. After a request answered with fresh, truthy data, any
    request whose address normalises to the same text, made while the
    clock reads at most ten minutes past the reading stored, is
    answered with that data marked as cached, and calls nothing. *)
Theorem cache_keyed_by_normalised_address
    (req1 req2 : HttpRequest) (w w' : World) (raw1 raw2 url : string) (data : json) :
  fst (rawUrlOf req1 w) = inr raw1 -> normalizeUrl raw1 = Some url ->
  fst (rawUrlOf req2 w') = inr raw2 -> normalizeUrl raw2 = Some url ->
  analyze req1 w = (inr (dataReply false data), w') ->
  JS.truthy data = true ->
  (clock w' (ticks w') <= clock w' (Nat.pred (ticks w')) + 10 * 60 * 1000)%Z ->
  analyze req2 w' = (inr (dataReply true data), ticked w').
Proof.
  intros Hr1 Hn1 Hr2 Hn2 H1 Hdata Hsoon. rewrite analyze_run in H1. rewrite analyze_run.
  rewrite Hr1, Hn1 in H1. rewrite Hr2, Hn2.
  destruct (String.eqb url ""); [discriminate H1|].
  destruct (isAllowedUrl url); [|discriminate H1].
  destruct (getCache url w) as [[e|cached] w1]; [discriminate H1|].
  destruct (JS.truthy cached) eqn:Hc.
  { injection H1 as Hd _. discriminate Hd. }
  destruct (fetchSiteHTML url w1) as [[e|html] w2]; [discriminate H1|].
  destruct (callGroq (buildPrompt url html) w2) as [[e|analysis] w3]; [discriminate H1|].
  rewrite setCache_run in H1. cbn [snd] in H1.
  injection H1 as Hd Hw. subst analysis.
  set (entry := {| value := data; expires := (clock w3 (ticks w3) + CACHE_TTL_MS)%Z |}) in *.
  assert (He : cache w' !! url = Some entry).
  { rewrite <- Hw. cbn [cache with_cache ticked]. apply lookup_insert_eq. }
  assert (Ht : (clock w' (ticks w') <= expires entry)%Z).
  { rewrite <- Hw in Hsoon. cbn [clock ticks with_cache ticked Nat.pred] in Hsoon.
    rewrite <- Hw. exact Hsoon. }
  rewrite (getCache_fresh url entry w' He Ht). cbn [value entry].
  rewrite Hdata. reflexivity.
Qed.

End MoreHandlerFacts.

(** ** The further properties at concrete inputs *)

Lemma getCache_frame_witness :
  getCache "https://example.org/" (warmWorld JNull) = (inr JNull, warmWorld JNull)
  /\ ticks (snd (getCache "https://example.com/" (warmWorld JNull))) = 1%nat.
Proof.
  destruct (getCache_frame (warmWorld JNull) "https://example.org/") as (_ & _ & _ & H & _).
  destruct (getCache_frame (warmWorld JNull) "https://example.com/") as (_ & _ & _ & _ & H').
  split; [apply H; reflexivity|].
  apply (H' {| value := JNull; expires := 2000 |}). reflexivity.
Defined.

Lemma fetchSiteHTML_failures_witness :
  fst (fetchSiteHTML "https://example.com/x"
         (worldOf ∅ (fun _ => 1000%Z) notFoundNetwork))
  = inl (mkError "Upstream fetch failed: 404 Not Found")
  /\ fst (fetchSiteHTML "https://example.com/x" offlineWorld)
     = inl (mkError "connect ECONNREFUSED").
Proof.
  split.
  - destruct (fetchSiteHTML_failures "https://example.com/x"
                (worldOf ∅ (fun _ => 1000%Z) notFoundNetwork)) as (_ & _ & _ & _ & _ & H & _).
    apply (H missingPage eq_refl). right. reflexivity.
  - destruct (fetchSiteHTML_failures "https://example.com/x" offlineWorld)
      as (_ & _ & _ & _ & H & _).
    apply H. reflexivity.
Defined.

Lemma prompt_size_bound_witness :
  exists system user,
    buildPrompt "https://example.com/" "<html><head><title>Example</title></head></html>"
    = JArr [JObj [("role", JStr "system"); ("content", JStr system)];
            JObj [("role", JStr "user"); ("content", JStr user)]]
    /\ JS.length user
       = (2041 + JS.length "https://example.com/"
          + JS.length "<html><head><title>Example</title></head></html>")%Z
    /\ (JS.length user <= 802041 + JS.length "https://example.com/")%Z.
Proof.
  apply (prompt_size_bound "https://example.com/" (quietWorld JNull)). reflexivity.
Defined.

Lemma isAllowedUrl_by_last_character_witness :
  (isAllowedUrl (runtime := reference None) "https://10.0.0.1/" = false
   <-> "10.0.0.1" = "127.0.0.1" \/ "10.0.0.1" = "0.0.0.0")
  /\ isAllowedUrl (runtime := reference None) "https://localhost./" = true.
Proof.
  split.
  - refine (proj2 (isAllowedUrl_by_last_character (runtime := reference None)
                     "https://10.0.0.1/"
                     {| Whatwg.scheme := "https"; Whatwg.username := "";
                        Whatwg.password := ""; Whatwg.host := "10.0.0.1";
                        Whatwg.port := None; Whatwg.path := [""];
                        Whatwg.query := None; Whatwg.fragment := None |}
                     "1"%char eq_refl eq_refl) _).
    right. reflexivity.
  - refine (proj1 (isAllowedUrl_by_last_character (runtime := reference None)
                     "https://localhost./"
                     {| Whatwg.scheme := "https"; Whatwg.username := "";
                        Whatwg.password := ""; Whatwg.host := "localhost.";
                        Whatwg.port := None; Whatwg.path := [""];
                        Whatwg.query := None; Whatwg.fragment := None |}
                     "."%char eq_refl eq_refl) _ _ _ _); discriminate.
Defined.

Lemma analyze_url_field_witness :
  analyze (runtime := reference None) {| req_body := None |} offlineWorld
  = analyze (runtime := reference None) (post "") offlineWorld
  /\ analyze (runtime := reference None)
       {| req_body := Some (JObj [("url", JNum (inject_Z 5))]) |} offlineWorld
     = (inr (errorReply 500 "(intermediate value).trim is not a function"), offlineWorld).
Proof.
  split.
  - destruct (analyze_url_field (runtime := reference None) {| req_body := None |}
                offlineWorld) as [H _].
    apply H. reflexivity.
  - destruct (analyze_url_field (runtime := reference None)
                {| req_body := Some (JObj [("url", JNum (inject_Z 5))]) |} offlineWorld)
      as (_ & _ & H).
    apply (H (JNum (inject_Z 5)) eq_refl eq_refl). intros s. discriminate.
Defined.

Lemma analyze_frame_witness :
  cache (snd (analyze (runtime := reference None) (post "example.org") (warmWorld JNull)))
    !! "https://example.com/"
  = Some {| value := JNull; expires := 2000 |}.
Proof.
  rewrite (analyze_frame (runtime := reference None) (post "example.org") (warmWorld JNull)
             "https://example.com/").
  - reflexivity.
  - intros raw H. vm_compute in H. injection H as <-. vm_compute. discriminate.
Defined.

Lemma cached_reply_is_fresh_witness :
  exists raw url e,
    fst (rawUrlOf (runtime := reference None) (post "example.com") (warmWorld (JObj [])))
    = inr raw
    /\ normalizeUrl (runtime := reference None) raw = Some url
    /\ isAllowedUrl (runtime := reference None) url = true
    /\ cache (warmWorld (JObj [])) !! url = Some e /\ value e = JObj []
    /\ (clock (warmWorld (JObj [])) (ticks (warmWorld (JObj []))) <= expires e)%Z
    /\ ticked (warmWorld (JObj [])) = ticked (warmWorld (JObj [])).
Proof.
  apply (cached_reply_is_fresh (runtime := reference None) (post "example.com")).
  vm_compute. reflexivity.
Defined.

Lemma cache_keyed_by_normalised_address_witness :
  analyze (runtime := reference None) (post " HTTPS://Example.COM ")
    (snd (analyze (runtime := reference None) (post "example.com")
            (quietWorld (JStr "{}"))))
  = (inr (dataReply true (JObj [])),
     ticked (snd (analyze (runtime := reference None) (post "example.com")
                    (quietWorld (JStr "{}"))))).
Proof.
  apply (cache_keyed_by_normalised_address (runtime := reference None)
           (post "example.com") (post " HTTPS://Example.COM ")
           (quietWorld (JStr "{}")) _ "example.com" "HTTPS://Example.COM"
           "https://example.com/" (JObj [])).
  - reflexivity.
  - reflexivity.
  - reflexivity.
  - reflexivity.
  - vm_compute. reflexivity.
  - reflexivity.
  - vm_compute. discriminate.
Defined.
